(** * experimental-hmr: the compile pass of [src/index.ts]

    A shallow embedding of the source-to-source pass that splits a script
    into a locals module and a main module, and the properties of its
    entry-point locator, binding extractor and scoped rewriter.

    The syntax tree is Babel's: a node carries its [start] and [end]
    offsets and a tagged payload.  The functions dispatch on the tag the way
    the TypeScript [switch (ast.type)] does; a tag that a [switch] does not
    list falls to its [default] branch, which at run time does nothing. *)

From stdpp Require Import base decidable option list strings gmap.

(** ** Thrown values and results *)

(** [throw new Error(message)] and the engine's [TypeError] for a property
    read on [undefined]. *)
Inductive Exn : Type :=
| Error (message : string)
| TypeError.

Inductive Result (A : Type) : Type :=
| Ok (a : A)
| Throw (e : Exn).
Arguments Ok {A} a.
Arguments Throw {A} e.

Definition bind {A B : Type} (r : Result A) (k : A -> Result B) : Result B :=
  match r with
  | Ok a => k a
  | Throw e => Throw e
  end.

Notation "'let*' x := r 'in' k" := (bind r (fun x => k))
  (at level 10, x pattern, r at level 100, k at level 200, only parsing).

Section Loops.
Context {A S : Type} (f : A -> S -> Result S).

(** [for (const x of l) f(x)] over a threaded state; the first throw
    leaves the loop. *)
Fixpoint forEach (l : list A) (s : S) : Result S :=
  match l with
  | [] => Ok s
  | x :: rest => let* s1 := f x s in forEach rest s1
  end.
End Loops.

(** ** The syntax tree *)

Record VariableDeclarator (N : Type) : Type :=
  mkVariableDeclarator { d_id : N; d_init : option N }.
Arguments mkVariableDeclarator {N} d_id d_init.
Arguments d_id {N} _.
Arguments d_init {N} _.

Record SwitchCase (N : Type) : Type :=
  mkSwitchCase { c_test : option N; c_consequent : list N }.
Arguments mkSwitchCase {N} c_test c_consequent.
Arguments c_test {N} _.
Arguments c_consequent {N} _.

Record CatchClause (N : Type) : Type :=
  mkCatchClause { h_param : option N; h_body : N }.
Arguments mkCatchClause {N} h_param h_body.
Arguments h_param {N} _.
Arguments h_body {N} _.

(** An import specifier of any of the three kinds; [local] is an
    identifier, of which only the name is read. *)
Record ImportSpecifier : Type := mkImportSpecifier { local_name : string }.

Inductive Node : Type :=
| mkNode (start end_ : nat) (type : NodeType)

with NodeType : Type :=
(* expressions *)
| ArrayExpression (elements : list (option Node))
| AssignmentExpression (left_ right_ : Node)
| BinaryExpression (left_ right_ : Node)
| CallExpression (callee : Node) (arguments : list Node)
| ConditionalExpression (test consequent alternate : Node)
| FunctionExpression (params : list Node) (body : Node)
| Identifier (name : string)
| LogicalExpression (left_ right_ : Node)
| MemberExpression (object property : Node)
| NewExpression (callee : Node) (arguments : list Node)
| ObjectExpression (properties : list Node)
| SequenceExpression (expressions : list Node)
| ParenthesizedExpression (expression : Node)
| ThisExpression
| UnaryExpression (argument : Node)
| UpdateExpression (argument : Node)
| ArrowFunctionExpression (params : list Node) (body : Node)
| ClassExpression
| ImportExpression
| MetaProperty
| Super
| TaggedTemplateExpression (tag quasi : Node)
| TemplateLiteral (expressions : list Node)
| YieldExpression (argument : option Node)
| AwaitExpression (argument : Node)
| Import
| OptionalMemberExpression (object property : Node)
| OptionalCallExpression (callee : Node) (arguments : list Node)
| TypeCastExpression (expression : Node)
| BindExpression
| DoExpression
| RecordExpression
| TupleExpression
| StringLiteral
| NumericLiteral
| NullLiteral
| BooleanLiteral
| RegExpLiteral
| BigIntLiteral
| DecimalLiteral
| JSXElement
| JSXFragment
| ModuleExpression
| TopicReference
| PipelineTopicExpression
| PipelineBareFunction
| PipelinePrimaryTopicReference
| TSInstantiationExpression (expression : Node)
| TSAsExpression (expression : Node)
| TSSatisfiesExpression (expression : Node)
| TSTypeAssertion (expression : Node)
| TSNonNullExpression (expression : Node)
(* patterns, members and arguments *)
| RestElement (argument : Node)
| AssignmentPattern (left_ right_ : Node)
| ArrayPattern (elements : list (option Node))
| ObjectPattern (properties : list Node)
| TSParameterProperty
| ObjectProperty (key value : Node) (computed shorthand : bool)
| ObjectMethod (params : list Node) (body : Node)
| SpreadElement (argument : Node)
| PrivateName
| V8IntrinsicIdentifier (name : string)
| JSXNamespacedName
| ArgumentPlaceholder
(* statements *)
| BlockStatement (body : list Node)
| BreakStatement
| ContinueStatement
| DebuggerStatement
| EmptyStatement
| DoWhileStatement (test body : Node)
| ExpressionStatement (expression : Node)
| ForInStatement (left_ right_ body : Node)
| ForStatement (init test update : option Node) (body : Node)
| FunctionDeclaration (params : list Node) (body : Node)
| IfStatement (test consequent : Node) (alternate : option Node)
| LabeledStatement (body : Node)
| ReturnStatement (argument : option Node)
| SwitchStatement (discriminant : Node) (cases : list (SwitchCase Node))
| ThrowStatement (argument : Node)
| TryStatement (block : Node) (handler : option (CatchClause Node))
    (finalizer : option Node)
| VariableDeclaration (kind : string)
    (declarations : list (VariableDeclarator Node))
| WhileStatement (test body : Node)
| WithStatement (object body : Node)
| ClassDeclaration
| ExportAllDeclaration
| ExportDefaultDeclaration
| ExportNamedDeclaration
| TSExportAssignment
| TSNamespaceExportDeclaration
| ForOfStatement (left_ right_ body : Node)
| ImportDeclaration (importKind : option string)
    (specifiers : list ImportSpecifier)
| TSImportEqualsDeclaration
| EnumDeclaration
| DeclareClass
| DeclareFunction
| DeclareInterface
| DeclareModule
| DeclareModuleExports
| DeclareTypeAlias
| DeclareOpaqueType
| DeclareVariable
| DeclareExportDeclaration
| DeclareExportAllDeclaration
| InterfaceDeclaration
| OpaqueType
| TypeAlias
| TSDeclareFunction
| TSInterfaceDeclaration
| TSTypeAliasDeclaration
| TSModuleDeclaration
| TSEnumDeclaration (initializers : list (option Node))
(* every other kind of node, a type annotation for one *)
| OtherNode (tag : string).

Definition start (ast : Node) : nat := match ast with mkNode s _ _ => s end.
Definition end_ (ast : Node) : nat := match ast with mkNode _ e _ => e end.
Definition type (ast : Node) : NodeType :=
  match ast with mkNode _ _ t => t end.

(** The tag itself, the string of [ast.type]. *)
Definition typeName (ast : Node) : string :=
  match type ast with
  | ArrayExpression _ => "ArrayExpression"
  | AssignmentExpression _ _ => "AssignmentExpression"
  | BinaryExpression _ _ => "BinaryExpression"
  | CallExpression _ _ => "CallExpression"
  | ConditionalExpression _ _ _ => "ConditionalExpression"
  | FunctionExpression _ _ => "FunctionExpression"
  | Identifier _ => "Identifier"
  | LogicalExpression _ _ => "LogicalExpression"
  | MemberExpression _ _ => "MemberExpression"
  | NewExpression _ _ => "NewExpression"
  | ObjectExpression _ => "ObjectExpression"
  | SequenceExpression _ => "SequenceExpression"
  | ParenthesizedExpression _ => "ParenthesizedExpression"
  | ThisExpression => "ThisExpression"
  | UnaryExpression _ => "UnaryExpression"
  | UpdateExpression _ => "UpdateExpression"
  | ArrowFunctionExpression _ _ => "ArrowFunctionExpression"
  | ClassExpression => "ClassExpression"
  | ImportExpression => "ImportExpression"
  | MetaProperty => "MetaProperty"
  | Super => "Super"
  | TaggedTemplateExpression _ _ => "TaggedTemplateExpression"
  | TemplateLiteral _ => "TemplateLiteral"
  | YieldExpression _ => "YieldExpression"
  | AwaitExpression _ => "AwaitExpression"
  | Import => "Import"
  | OptionalMemberExpression _ _ => "OptionalMemberExpression"
  | OptionalCallExpression _ _ => "OptionalCallExpression"
  | TypeCastExpression _ => "TypeCastExpression"
  | BindExpression => "BindExpression"
  | DoExpression => "DoExpression"
  | RecordExpression => "RecordExpression"
  | TupleExpression => "TupleExpression"
  | StringLiteral => "StringLiteral"
  | NumericLiteral => "NumericLiteral"
  | NullLiteral => "NullLiteral"
  | BooleanLiteral => "BooleanLiteral"
  | RegExpLiteral => "RegExpLiteral"
  | BigIntLiteral => "BigIntLiteral"
  | DecimalLiteral => "DecimalLiteral"
  | JSXElement => "JSXElement"
  | JSXFragment => "JSXFragment"
  | ModuleExpression => "ModuleExpression"
  | TopicReference => "TopicReference"
  | PipelineTopicExpression => "PipelineTopicExpression"
  | PipelineBareFunction => "PipelineBareFunction"
  | PipelinePrimaryTopicReference => "PipelinePrimaryTopicReference"
  | TSInstantiationExpression _ => "TSInstantiationExpression"
  | TSAsExpression _ => "TSAsExpression"
  | TSSatisfiesExpression _ => "TSSatisfiesExpression"
  | TSTypeAssertion _ => "TSTypeAssertion"
  | TSNonNullExpression _ => "TSNonNullExpression"
  | RestElement _ => "RestElement"
  | AssignmentPattern _ _ => "AssignmentPattern"
  | ArrayPattern _ => "ArrayPattern"
  | ObjectPattern _ => "ObjectPattern"
  | TSParameterProperty => "TSParameterProperty"
  | ObjectProperty _ _ _ _ => "ObjectProperty"
  | ObjectMethod _ _ => "ObjectMethod"
  | SpreadElement _ => "SpreadElement"
  | PrivateName => "PrivateName"
  | V8IntrinsicIdentifier _ => "V8IntrinsicIdentifier"
  | JSXNamespacedName => "JSXNamespacedName"
  | ArgumentPlaceholder => "ArgumentPlaceholder"
  | BlockStatement _ => "BlockStatement"
  | BreakStatement => "BreakStatement"
  | ContinueStatement => "ContinueStatement"
  | DebuggerStatement => "DebuggerStatement"
  | EmptyStatement => "EmptyStatement"
  | DoWhileStatement _ _ => "DoWhileStatement"
  | ExpressionStatement _ => "ExpressionStatement"
  | ForInStatement _ _ _ => "ForInStatement"
  | ForStatement _ _ _ _ => "ForStatement"
  | FunctionDeclaration _ _ => "FunctionDeclaration"
  | IfStatement _ _ _ => "IfStatement"
  | LabeledStatement _ => "LabeledStatement"
  | ReturnStatement _ => "ReturnStatement"
  | SwitchStatement _ _ => "SwitchStatement"
  | ThrowStatement _ => "ThrowStatement"
  | TryStatement _ _ _ => "TryStatement"
  | VariableDeclaration _ _ => "VariableDeclaration"
  | WhileStatement _ _ => "WhileStatement"
  | WithStatement _ _ => "WithStatement"
  | ClassDeclaration => "ClassDeclaration"
  | ExportAllDeclaration => "ExportAllDeclaration"
  | ExportDefaultDeclaration => "ExportDefaultDeclaration"
  | ExportNamedDeclaration => "ExportNamedDeclaration"
  | TSExportAssignment => "TSExportAssignment"
  | TSNamespaceExportDeclaration => "TSNamespaceExportDeclaration"
  | ForOfStatement _ _ _ => "ForOfStatement"
  | ImportDeclaration _ _ => "ImportDeclaration"
  | TSImportEqualsDeclaration => "TSImportEqualsDeclaration"
  | EnumDeclaration => "EnumDeclaration"
  | DeclareClass => "DeclareClass"
  | DeclareFunction => "DeclareFunction"
  | DeclareInterface => "DeclareInterface"
  | DeclareModule => "DeclareModule"
  | DeclareModuleExports => "DeclareModuleExports"
  | DeclareTypeAlias => "DeclareTypeAlias"
  | DeclareOpaqueType => "DeclareOpaqueType"
  | DeclareVariable => "DeclareVariable"
  | DeclareExportDeclaration => "DeclareExportDeclaration"
  | DeclareExportAllDeclaration => "DeclareExportAllDeclaration"
  | InterfaceDeclaration => "InterfaceDeclaration"
  | OpaqueType => "OpaqueType"
  | TypeAlias => "TypeAlias"
  | TSDeclareFunction => "TSDeclareFunction"
  | TSInterfaceDeclaration => "TSInterfaceDeclaration"
  | TSTypeAliasDeclaration => "TSTypeAliasDeclaration"
  | TSModuleDeclaration => "TSModuleDeclaration"
  | TSEnumDeclaration _ => "TSEnumDeclaration"
  | OtherNode tag => tag
  end.

(** The run-time tests of [@babel/types], each the membership of the tag
    in one of the library's aliases.  [LVal] and [Expression] are the kinds
    the exhaustive [switch] of [processLVal] and of [processExpr] lists. *)
Definition isPatternLike (ast : Node) : bool :=
  match type ast with
  | Identifier _ | RestElement _ | AssignmentPattern _ _ | ArrayPattern _
  | ObjectPattern _ | TSAsExpression _ | TSSatisfiesExpression _
  | TSTypeAssertion _ | TSNonNullExpression _ => true
  | _ => false
  end.

Definition isLVal (ast : Node) : bool :=
  match type ast with
  | Identifier _ | MemberExpression _ _ | RestElement _
  | AssignmentPattern _ _ | ArrayPattern _ | ObjectPattern _
  | TSParameterProperty | TSAsExpression _ | TSSatisfiesExpression _
  | TSTypeAssertion _ | TSNonNullExpression _ => true
  | _ => false
  end.

Definition isExpression (ast : Node) : bool :=
  match type ast with
  | ArrayExpression _ | AssignmentExpression _ _ | BinaryExpression _ _
  | CallExpression _ _ | ConditionalExpression _ _ _
  | FunctionExpression _ _ | Identifier _ | LogicalExpression _ _
  | MemberExpression _ _ | NewExpression _ _ | ObjectExpression _
  | SequenceExpression _ | ParenthesizedExpression _ | ThisExpression
  | UnaryExpression _ | UpdateExpression _ | ArrowFunctionExpression _ _
  | ClassExpression | ImportExpression | MetaProperty | Super
  | TaggedTemplateExpression _ _ | TemplateLiteral _ | YieldExpression _
  | AwaitExpression _ | Import | OptionalMemberExpression _ _
  | OptionalCallExpression _ _ | TypeCastExpression _ | BindExpression
  | DoExpression | RecordExpression | TupleExpression | StringLiteral
  | NumericLiteral | NullLiteral | BooleanLiteral | RegExpLiteral
  | BigIntLiteral | DecimalLiteral | JSXElement | JSXFragment
  | ModuleExpression | TopicReference | PipelineTopicExpression
  | PipelineBareFunction | PipelinePrimaryTopicReference
  | TSInstantiationExpression _ | TSAsExpression _
  | TSSatisfiesExpression _ | TSTypeAssertion _ | TSNonNullExpression _ =>
      true
  | _ => false
  end.

Definition isJSXNamespacedName (ast : Node) : bool :=
  match type ast with JSXNamespacedName => true | _ => false end.

Definition isPrivateName (ast : Node) : bool :=
  match type ast with PrivateName => true | _ => false end.

(** ** The source patch buffer

    [magic-string] is an external library.  A buffer is the original text
    and the edits scheduled on it, in the order the program schedules them;
    every edit is keyed to offsets of the original text.  The program
    mutates the one buffer in place; here each operation returns the buffer
    it leaves.  The library throws on a range it refuses (an end beyond
    the text, an empty range to update, a range that cuts a chunk already
    edited); a run in which it does is outside this development, as is a
    text the parser refuses: the operations below schedule every edit. *)
Module MagicString.
Inductive Edit : Type :=
| Update (start end_ : nat) (content : string)
| Remove (start end_ : nat)
| Append (content : string).

Record t : Type := mk { original : string; edits : list Edit }.

Definition new (src : string) : t := mk src [].

Definition update (m : t) (s e : nat) (content : string) : t :=
  mk (original m) (edits m ++ [Update s e content]).

Definition remove (m : t) (s e : nat) : t :=
  mk (original m) (edits m ++ [Remove s e]).

Definition append (m : t) (content : string) : t :=
  mk (original m) (edits m ++ [Append content]).

(** Read-back of a range of the original text (the program reads only
    ranges that no edit touches). *)
Definition slice (m : t) (s e : nat) : string :=
  String.substring s (e - s) (original m).
End MagicString.

Abbreviation MagicString := MagicString.t.

(** ** Locals access *)

Definition localsName : string := "__locals__".

Definition getLocalsName (id : string) : string :=
  "(" +:+ localsName +:+ "." +:+ id +:+ ")".

(** ** Entry-point locator *)

Record ParseResult : Type := mkParseResult {
  localsAst : list Node;
  localsSrc : MagicString;
  mainAst : Node;
  mainSrc : MagicString
}.

(** A callee of no listed kind leaves the function without a [return]:
    [undefined], which the caller's [&&] takes as false. *)
Fixpoint isCalleeApp (callee : Node) : bool :=
  match type callee with
  | V8IntrinsicIdentifier _ => false
  | Identifier name => bool_decide (name = "app")
  | CallExpression callee' _ => isCalleeApp callee'
  | MemberExpression object _ => isCalleeApp object
  | _ => false
  end.

(** The test of the [if] in the loop of [parse]; on success the call
    expression of the statement. *)
Definition entryCall (statement : Node) : option Node :=
  match type statement with
  | ExpressionStatement expression =>
      match type expression with
      | CallExpression callee _ =>
          if isCalleeApp callee then Some expression else None
      | _ => None
      end
  | _ => None
  end.

Section Parse.
(** [babelParse(src, ...).program.body]: the parser is external; a text
    it refuses is outside this development. *)
Variable babelParse : string -> list Node.

Section ParseLoop.
Variables (src : string) (statements : list Node).

(** The [for] loop of [parse] from index [i] on, [rest] being
    [statements.slice(i)]; [statements.filter((_, j) => j !== i)] is
    the list with index [i] deleted. *)
Fixpoint parseFrom (rest : list Node) (i : nat) : Result ParseResult :=
  match rest with
  | [] => Throw (Error "No app() call found")
  | statement :: rest' =>
      match entryCall statement with
      | Some expression =>
          let mainStart := start expression in
          let mainEnd := end_ expression in
          let localsSrc :=
            MagicString.remove (MagicString.new src) mainStart mainEnd in
          let mainSrc :=
            MagicString.remove
              (MagicString.remove (MagicString.new src) 0 mainStart)
              mainEnd (String.length src) in
          Ok {| localsAst := delete i statements;
                localsSrc := localsSrc;
                mainAst := expression;
                mainSrc := mainSrc |}
      | None => parseFrom rest' (S i)
      end
  end.
End ParseLoop.

Definition parse (src : string) : Result ParseResult :=
  let statements := babelParse src in
  parseFrom src statements statements 0.
End Parse.

(** ** Binding extractor *)

Record Binding : Type := mkBinding { name : string; readonly : bool }.

(** [bindings.push(b)] *)
Definition push (bindings : list Binding) (b : Binding) : list Binding :=
  bindings ++ [b].

(** The body of the loop over the properties of a top-level object
    pattern. *)
Definition getPropertyBindings (readonly : bool) (property : Node)
    (bindings : list Binding) : Result (list Binding) :=
  match type property with
  | RestElement argument =>
      match type argument with
      | Identifier name => Ok (push bindings (mkBinding name readonly))
      | _ => Throw (Error "Rest element must be an identifier")
      end
  | ObjectProperty key _ _ _ =>
      match type key with
      | Identifier name => Ok (push bindings (mkBinding name readonly))
      | _ => Throw (Error "Object property must be an identifier")
      end
  | _ => Ok bindings
  end.

(** The body of the loop over the declarations of a top-level variable
    declaration. *)
Definition getDeclarationBindings (localsSrc : MagicString) (readonly : bool)
    (declaration : VariableDeclarator Node) (bindings : list Binding) :
    Result (list Binding) :=
  let id := d_id declaration in
  match type id with
  | Identifier name => Ok (push bindings (mkBinding name readonly))
  | MemberExpression _ _ =>
      let name := MagicString.slice localsSrc (start id) (end_ id) in
      Ok (push bindings (mkBinding name readonly))
  | ArrayPattern _ => Ok bindings
  | ObjectPattern properties =>
      forEach (getPropertyBindings readonly) properties bindings
  | RestElement _ | AssignmentPattern _ _ | TSParameterProperty
  | TSAsExpression _ | TSSatisfiesExpression _ | TSTypeAssertion _
  | TSNonNullExpression _ =>
      Throw (Error ("Unsupported binding type: " +:+ typeName id))
  | _ => Ok bindings
  end.

(** The body of the loop over the top-level statements. *)
Definition getStatementBindings (localsSrc : MagicString) (statement : Node)
    (bindings : list Binding) : Result (list Binding) :=
  match type statement with
  | VariableDeclaration kind declarations =>
      let readonly := bool_decide (kind = "const") in
      forEach (getDeclarationBindings localsSrc readonly) declarations
        bindings
  | ImportDeclaration importKind specifiers =>
      if bool_decide (importKind = Some "type") then Ok bindings
      else
        forEach
          (fun specifier bindings =>
             if bool_decide (local_name specifier <> "app")
             then Ok (push bindings (mkBinding (local_name specifier) true))
             else Ok bindings)
          specifiers bindings
  | _ => Ok bindings
  end.

Definition getBindings (pr : ParseResult) : Result (list Binding) :=
  forEach (getStatementBindings (localsSrc pr)) (localsAst pr) [].

(** ** Locals module synthesizer *)

Definition appendExport (pr : ParseResult) (bindings : list Binding) :
    MagicString :=
  let str := "export default Object.seal({" in
  let str :=
    fold_left
      (fun str b =>
         if readonly b then str +:+ name b +:+ ","
         else
           (str +:+ "get " +:+ name b +:+ "() { return " +:+ name b +:+ " },")
             +:+ "set " +:+ name b +:+ "(v) { " +:+ name b +:+ " = v },")
      bindings str in
  let str := str +:+ "})" in
  MagicString.append (localsSrc pr) str.

(** ** Main module synthesizer *)

(** [mainAst.arguments[0]] is read unguarded: with no argument the read of
    [.start] on [undefined] throws the engine's [TypeError]. *)
Definition wrapMain (pr : ParseResult) : Result MagicString :=
  match type (mainAst pr) with
  | CallExpression _ arguments =>
      match arguments !! 0 with
      | Some argument0 =>
          let mainSrc :=
            MagicString.update (mainSrc pr) (start (mainAst pr))
              (start argument0)
              ("export default (" +:+ localsName +:+ ") =>") in
          Ok (MagicString.remove mainSrc (end_ argument0)
                (end_ (mainAst pr)))
      | None => Throw TypeError
      end
  | _ => Throw TypeError
  end.

(** ** Scoped rewriter *)

(** A scope snapshot is a JavaScript [Set] of names.  [new Set(bindings)]
    copies it: the copy is the same value, and what is done to the copy
    afterwards is not seen through the original.  A function that receives
    a [Set<string>] and deletes from it returns the set it leaves; a
    function that receives a [ReadonlySet<string>] returns the buffer
    only. *)
Abbreviation Bindings := (gset string).

Definition has (bindings : Bindings) (name : string) : bool :=
  bool_decide (name ∈ bindings).

(** [if (bindings.has(name)) src.update(start, end, content)] *)
Definition updateIfBound (src : MagicString) (bindings : Bindings)
    (name : string) (s e : nat) (content : string) : MagicString :=
  if has bindings name then MagicString.update src s e content else src.

(** The three helpers that are called on the node their caller holds, or
    on a list of its fields.  Each is written over the functions it calls,
    which the recursive definition below supplies. *)
Section Helpers.
Variable processExpr : Node -> MagicString -> Bindings -> Result MagicString.
Variable processLVal : Node -> MagicString -> Bindings -> Result MagicString.
Variable processDeclarationId :
  Node -> MagicString -> Bindings -> Result (MagicString * Bindings).

(** [processVariableDeclaration], on the [declarations] of its node. *)
Definition processVariableDeclarationWith
    (declarations : list (VariableDeclarator Node)) (src : MagicString)
    (bindings : Bindings) : Result (MagicString * Bindings) :=
  forEach
    (fun declaration '(src, bindings) =>
       let* src :=
         match d_init declaration with
         | Some init => processExpr init src bindings
         | None => Ok src
         end in
       processDeclarationId (d_id declaration) src bindings)
    declarations (src, bindings).

Definition processExprOrPatternLikeWith (ast : Node) (src : MagicString)
    (bindings : Bindings) : Result MagicString :=
  if isPatternLike ast then processLVal ast src bindings
  else processExpr ast src bindings.

Definition processArgumentWith (ast : Node) (src : MagicString)
    (bindings : Bindings) : Result MagicString :=
  if isJSXNamespacedName ast then Ok src
  else
    match type ast with
    | SpreadElement argument => processExpr argument src bindings
    | ArgumentPlaceholder =>
        Throw (Error ("Not implemented: " +:+ typeName ast))
    | _ => processExpr ast src bindings
    end.
End Helpers.

(** A shorthand entry of an object literal or of an object pattern. *)
Definition processShorthand (key : Node) (src : MagicString)
    (bindings : Bindings) : Result MagicString :=
  match type key with
  | Identifier name =>
      Ok (updateIfBound src bindings name (start key) (end_ key)
            (name +:+ ":" +:+ getLocalsName name))
  | _ => Throw (Error "Object property must be an identifier")
  end.

Fixpoint processStmt (ast : Node) (src : MagicString) (bindings : Bindings)
    {struct ast} : Result (MagicString * Bindings) :=
  match type ast with
  | BlockStatement body =>
      let innerBindings := bindings in
      let* (src, _) :=
        forEach (fun stmt '(src, innerBindings) =>
                   processStmt stmt src innerBindings)
          body (src, innerBindings) in
      Ok (src, bindings)

  | BreakStatement | ContinueStatement | DebuggerStatement
  | EmptyStatement =>
      Ok (src, bindings)

  | DoWhileStatement _ body => processStmt body src bindings

  | ExpressionStatement expression =>
      let* src := processExpr expression src bindings in
      Ok (src, bindings)

  | ForInStatement left_ right_ body =>
      let innerBindings2 := bindings in
      let* (src, innerBindings2) :=
        match type left_ with
        | VariableDeclaration _ declarations =>
            processVariableDeclarationWith processExpr processDeclarationId
              declarations src innerBindings2
        | _ =>
            let* src := processLVal left_ src innerBindings2 in
            Ok (src, innerBindings2)
        end in
      let* src := processExpr right_ src innerBindings2 in
      let* (src, _) := processStmt body src innerBindings2 in
      Ok (src, bindings)

  | ForStatement init test update body =>
      let innerBindings3 := bindings in
      let* (src, innerBindings3) :=
        match init with
        | Some init =>
            match type init with
            | VariableDeclaration _ declarations =>
                processVariableDeclarationWith processExpr
                  processDeclarationId declarations src innerBindings3
            | _ =>
                let* src := processExpr init src innerBindings3 in
                Ok (src, innerBindings3)
            end
        | None => Ok (src, innerBindings3)
        end in
      let* src :=
        match test with
        | Some test => processExpr test src innerBindings3
        | None => Ok src
        end in
      let* src :=
        match update with
        | Some update => processExpr update src innerBindings3
        | None => Ok src
        end in
      let* (src, _) := processStmt body src innerBindings3 in
      Ok (src, bindings)

  | FunctionDeclaration params body =>
      let innerBindings4 := bindings in
      let* src :=
        forEach (fun param src => processLVal param src innerBindings4)
          params src in
      let* (src, _) := processStmt body src innerBindings4 in
      Ok (src, bindings)

  | IfStatement test consequent alternate =>
      let innerBindings5 := bindings in
      let* src := processExpr test src innerBindings5 in
      let* (src, innerBindings5) :=
        processStmt consequent src innerBindings5 in
      let* (src, _) :=
        match alternate with
        | Some alternate => processStmt alternate src innerBindings5
        | None => Ok (src, innerBindings5)
        end in
      Ok (src, bindings)

  | LabeledStatement body => processStmt body src bindings

  | ReturnStatement argument =>
      match argument with
      | Some argument =>
          let* src := processExpr argument src bindings in
          Ok (src, bindings)
      | None => Ok (src, bindings)
      end

  | SwitchStatement discriminant cases =>
      let* src := processExpr discriminant src bindings in
      let* src :=
        forEach
          (fun caseClause src =>
             let* src :=
               match c_test caseClause with
               | Some test => processExpr test src bindings
               | None => Ok src
               end in
             let innerBindings6 := bindings in
             let* (src, _) :=
               forEach (fun stmt '(src, innerBindings6) =>
                          processStmt stmt src innerBindings6)
                 (c_consequent caseClause) (src, innerBindings6) in
             Ok src)
          cases src in
      Ok (src, bindings)

  | ThrowStatement argument =>
      let* src := processExpr argument src bindings in
      Ok (src, bindings)

  | TryStatement block handler finalizer =>
      let* (src, bindings) := processStmt block src bindings in
      let* (src, bindings) :=
        match handler with
        | Some handler =>
            let innerBindings7 := bindings in
            let* src :=
              match h_param handler with
              | Some param => processLVal param src innerBindings7
              | None => Ok src
              end in
            processStmt (h_body handler) src bindings
        | None => Ok (src, bindings)
        end in
      match finalizer with
      | Some finalizer => processStmt finalizer src bindings
      | None => Ok (src, bindings)
      end

  | VariableDeclaration _ declarations =>
      processVariableDeclarationWith processExpr processDeclarationId
        declarations src bindings

  | WhileStatement test body =>
      let innerBindings8 := bindings in
      let* src := processExpr test src innerBindings8 in
      let* (src, _) := processStmt body src innerBindings8 in
      Ok (src, bindings)

  | WithStatement object body =>
      let innerBindings9 := bindings in
      let* src := processExpr object src innerBindings9 in
      let* (src, _) := processStmt body src innerBindings9 in
      Ok (src, bindings)

  | ClassDeclaration => Throw (Error "Not implemented: ClassDeclaration")

  | ExportAllDeclaration | ExportDefaultDeclaration
  | ExportNamedDeclaration | TSExportAssignment
  | TSNamespaceExportDeclaration =>
      Throw (Error "Cannot export from app main")

  | ForOfStatement left_ right_ _ =>
      let* src := processExpr right_ src bindings in
      match type left_ with
      | VariableDeclaration _ declarations =>
          processVariableDeclarationWith processExpr processDeclarationId
            declarations src bindings
      | _ =>
          let* src := processLVal left_ src bindings in
          Ok (src, bindings)
      end

  | ImportDeclaration _ _ | TSImportEqualsDeclaration =>
      Throw (Error "Cannot import from app main")

  | EnumDeclaration => Throw (Error "Not implemented: EnumDeclaration")

  | DeclareClass | DeclareFunction | DeclareInterface | DeclareModule
  | DeclareModuleExports | DeclareTypeAlias | DeclareOpaqueType
  | DeclareVariable | DeclareExportDeclaration
  | DeclareExportAllDeclaration | InterfaceDeclaration | OpaqueType
  | TypeAlias | TSDeclareFunction | TSInterfaceDeclaration
  | TSTypeAliasDeclaration | TSModuleDeclaration =>
      Ok (src, bindings)

  | TSEnumDeclaration initializers =>
      let* src :=
        forEach
          (fun initializer src =>
             match initializer with
             | Some initializer => processExpr initializer src bindings
             | None => Ok src
             end)
          initializers src in
      Ok (src, bindings)

  | _ => Ok (src, bindings)
  end

with processExpr (ast : Node) (src : MagicString) (bindings : Bindings)
    {struct ast} : Result MagicString :=
  match type ast with
  | ArrayExpression elements =>
      forEach
        (fun element src =>
           match element with
           | None => Ok src
           | Some element =>
               match type element with
               | SpreadElement argument => processExpr argument src bindings
               | _ => processExpr element src bindings
               end
           end)
        elements src

  | AssignmentExpression left_ right_ =>
      let* src :=
        match type left_ with
        | OptionalMemberExpression _ _ => processExpr left_ src bindings
        | _ => processLVal left_ src bindings
        end in
      processExpr right_ src bindings

  | BinaryExpression left_ right_ =>
      let* src :=
        if isPrivateName left_ then Ok src
        else processExpr left_ src bindings in
      processExpr right_ src bindings

  | CallExpression callee arguments =>
      match type callee with
      | V8IntrinsicIdentifier name =>
          Throw (Error ("Not implemented: " +:+ name))
      | _ =>
          let* src := processExpr callee src bindings in
          forEach
            (fun arg src => processArgumentWith processExpr arg src bindings)
            arguments src
      end

  | ConditionalExpression test consequent alternate =>
      let* src := processExpr test src bindings in
      let* src := processExpr consequent src bindings in
      processExpr alternate src bindings

  | FunctionExpression _ body =>
      let innerBindings := bindings in
      let* (src, _) := processStmt body src innerBindings in
      Ok src

  | Identifier name =>
      Ok (updateIfBound src bindings name (start ast) (end_ ast)
            (getLocalsName name))

  | LogicalExpression left_ right_ =>
      let* src := processExpr left_ src bindings in
      processExpr right_ src bindings

  | MemberExpression object property =>
      let* src := processExpr object src bindings in
      if isPrivateName property then Ok src
      else processExpr property src bindings

  | NewExpression callee arguments =>
      match type callee with
      | V8IntrinsicIdentifier name =>
          Throw (Error ("Not implemented: " +:+ name))
      | _ =>
          let* src := processExpr callee src bindings in
          forEach
            (fun arg src => processArgumentWith processExpr arg src bindings)
            arguments src
      end

  | ObjectExpression properties =>
      forEach
        (fun property src =>
           match type property with
           | ObjectProperty key value computed shorthand =>
               if shorthand then processShorthand key src bindings
               else
                 let* src :=
                   if negb (isPrivateName key) && computed
                   then processExpr key src bindings
                   else Ok src in
                 processExprOrPatternLikeWith processExpr processLVal value
                   src bindings
           | SpreadElement argument => processExpr argument src bindings
           | ObjectMethod params body =>
               let innerBindings2 := bindings in
               let* src :=
                 forEach
                   (fun param src => processLVal param src innerBindings2)
                   params src in
               let* (src, _) := processStmt body src innerBindings2 in
               Ok src
           | _ => Ok src
           end)
        properties src

  | SequenceExpression expressions =>
      forEach (fun expression src => processExpr expression src bindings)
        expressions src

  | ParenthesizedExpression expression => processExpr expression src bindings

  | ThisExpression => Ok src

  | UnaryExpression argument => processExpr argument src bindings

  | UpdateExpression argument => processExpr argument src bindings

  | ArrowFunctionExpression params body =>
      let innerBindings3 := bindings in
      let* src :=
        forEach (fun param src => processLVal param src innerBindings3)
          params src in
      match type body with
      | BlockStatement _ =>
          let* (src, _) := processStmt body src innerBindings3 in
          Ok src
      | _ => processExpr body src innerBindings3
      end

  | ClassExpression => Ok src

  | ImportExpression => Throw (Error ("Not implemented: " +:+ typeName ast))

  | MetaProperty => Ok src

  | Super => Ok src

  | TaggedTemplateExpression tag quasi =>
      let* src := processExpr tag src bindings in
      processExpr quasi src bindings

  | TemplateLiteral expressions =>
      forEach
        (fun expression src =>
           if isExpression expression
           then processExpr expression src bindings
           else Ok src)
        expressions src

  | YieldExpression argument =>
      match argument with
      | Some argument => processExpr argument src bindings
      | None => Ok src
      end

  | AwaitExpression argument => processExpr argument src bindings

  | Import => Ok src

  | OptionalMemberExpression object property =>
      let* src := processExpr object src bindings in
      processExpr property src bindings

  | OptionalCallExpression callee arguments =>
      let* src := processExpr callee src bindings in
      forEach
        (fun arg src => processArgumentWith processExpr arg src bindings)
        arguments src

  | TypeCastExpression expression => processExpr expression src bindings

  | BindExpression | DoExpression | RecordExpression | TupleExpression =>
      Throw (Error ("Not implemented: " +:+ typeName ast))

  | StringLiteral | NumericLiteral | NullLiteral | BooleanLiteral
  | RegExpLiteral | BigIntLiteral | DecimalLiteral =>
      Ok src

  | JSXElement | JSXFragment | ModuleExpression | TopicReference
  | PipelineTopicExpression | PipelineBareFunction
  | PipelinePrimaryTopicReference =>
      Throw (Error ("Not implemented: " +:+ typeName ast))

  | TSInstantiationExpression expression | TSAsExpression expression
  | TSSatisfiesExpression expression | TSTypeAssertion expression
  | TSNonNullExpression expression =>
      processExpr expression src bindings

  | _ => Ok src
  end

with processLVal (ast : Node) (src : MagicString) (bindings : Bindings)
    {struct ast} : Result MagicString :=
  match type ast with
  | Identifier name =>
      Ok (updateIfBound src bindings name (start ast) (end_ ast)
            (getLocalsName name))

  | MemberExpression object property =>
      let* src := processExpr object src bindings in
      if isPrivateName property then Ok src
      else processExpr property src bindings

  | RestElement argument => processLVal argument src bindings

  | AssignmentPattern left_ right_ =>
      let* src := processLVal left_ src bindings in
      processExpr right_ src bindings

  | ArrayPattern elements =>
      forEach
        (fun element src =>
           match element with
           | Some element => processLVal element src bindings
           | None => Ok src
           end)
        elements src

  | ObjectPattern properties =>
      forEach
        (fun property src =>
           match type property with
           | RestElement _ => processLVal property src bindings
           | ObjectProperty key value computed shorthand =>
               if shorthand then processShorthand key src bindings
               else
                 let* src :=
                   if negb (isPrivateName key) && computed
                   then processExpr key src bindings
                   else Ok src in
                 processExprOrPatternLikeWith processExpr processLVal value
                   src bindings
           | _ => Ok src
           end)
        properties src

  | TSParameterProperty => Ok src

  | TSAsExpression expression | TSSatisfiesExpression expression
  | TSTypeAssertion expression | TSNonNullExpression expression =>
      processExpr expression src bindings

  | _ => Ok src
  end

with processDeclarationId (ast : Node) (src : MagicString)
    (bindings : Bindings) {struct ast} : Result (MagicString * Bindings) :=
  match type ast with
  | Identifier name => Ok (src, bindings ∖ {[name]})

  | MemberExpression _ _ =>
      Throw (Error ("Unsupported declaration type: " +:+ typeName ast))

  | RestElement argument =>
      match type argument with
      | Identifier name => Ok (src, bindings ∖ {[name]})
      | _ =>
          Throw (Error "Rest element must be an identifier in variable decl")
      end

  | AssignmentPattern left_ right_ =>
      let* (src, bindings) := processDeclarationId left_ src bindings in
      let* src := processExpr right_ src bindings in
      Ok (src, bindings)

  | ArrayPattern elements =>
      forEach
        (fun element '(src, bindings) =>
           match element with
           | Some element => processDeclarationId element src bindings
           | None => Ok (src, bindings)
           end)
        elements (src, bindings)

  | ObjectPattern properties =>
      forEach
        (fun property '(src, bindings) =>
           match type property with
           | RestElement argument =>
               match type argument with
               | Identifier name => Ok (src, bindings ∖ {[name]})
               | _ =>
                   Throw
                     (Error
                        "Rest element must be an identifier in variable decl")
               end
           | ObjectProperty key value computed shorthand =>
               if shorthand then
                 match type key with
                 | Identifier name => Ok (src, bindings ∖ {[name]})
                 | _ =>
                     Throw
                       (Error
                          "Object property must be an identifier in variable decl")
                 end
               else
                 let* src :=
                   if negb (isPrivateName key) && computed
                   then processExpr key src bindings
                   else Ok src in
                 if negb (isLVal value) then
                   Throw
                     (Error
                        "Object property must be a pattern in variable decl")
                 else processDeclarationId value src bindings
           | _ => Ok (src, bindings)
           end)
        properties (src, bindings)

  | TSParameterProperty => Ok (src, bindings)

  | TSAsExpression expression | TSSatisfiesExpression expression
  | TSTypeAssertion expression | TSNonNullExpression expression =>
      let* src := processExpr expression src bindings in
      Ok (src, bindings)

  | _ => Ok (src, bindings)
  end.

Definition processVariableDeclaration :
    list (VariableDeclarator Node) -> MagicString -> Bindings ->
    Result (MagicString * Bindings) :=
  processVariableDeclarationWith processExpr processDeclarationId.

Definition processExprOrPatternLike :
    Node -> MagicString -> Bindings -> Result MagicString :=
  processExprOrPatternLikeWith processExpr processLVal.

Definition processArgument :
    Node -> MagicString -> Bindings -> Result MagicString :=
  processArgumentWith processExpr.

(** The loop over the statements of a block or of a switch case, on the
    one set the statements share. *)
Definition processStmts (body : list Node) (src : MagicString)
    (bindings : Bindings) : Result (MagicString * Bindings) :=
  forEach (fun stmt '(src, bindings) => processStmt stmt src bindings)
    body (src, bindings).

(** ** The pass *)

Record CompileResult : Type := mkCompileResult {
  locals : string;
  main : string
}.

Section Compile.
Variable babelParse : string -> list Node.
(** [MagicString.prototype.toString], the external renderer. *)
Variable toString : MagicString -> string.

Definition compile (src : string) : Result CompileResult :=
  let* parseResult := parse babelParse src in
  let* bindings := getBindings parseResult in
  let localsSrc := appendExport parseResult bindings in
  let* mainSrc :=
    processExpr (mainAst parseResult) (mainSrc parseResult)
      (list_to_set (map name bindings)) in
  let parseResult :=
    {| localsAst := localsAst parseResult;
       localsSrc := localsSrc;
       mainAst := mainAst parseResult;
       mainSrc := mainSrc |} in
  let* mainSrc := wrapMain parseResult in
  Ok {| locals := toString localsSrc; main := toString mainSrc |}.
End Compile.

(** ** Scripts

    The syntax trees, with their offsets, that the parser produces for a
    few scripts. *)
Module Scripts.

Definition shadow_src : string :=
"let x = 1; app(() => { let x = 2; return x; })".

Definition shadow_program : list Node :=
[mkNode 0 10 (VariableDeclaration "let" [mkVariableDeclarator (mkNode 4 5
(Identifier "x")) (Some (mkNode 8 9 NumericLiteral))]); mkNode 11 46
(ExpressionStatement (mkNode 11 46 (CallExpression (mkNode 11 14 (Identifier
"app")) [mkNode 15 45 (ArrowFunctionExpression [] (mkNode 21 45
(BlockStatement [mkNode 23 33 (VariableDeclaration "let"
[mkVariableDeclarator (mkNode 27 28 (Identifier "x")) (Some (mkNode 31 32
NumericLiteral))]); mkNode 34 43 (ReturnStatement (Some (mkNode 41 42
(Identifier "x"))))])))])))].

Definition outside_src : string :=
"let x = 1; app(() => { { let x = 2; x; } return x; })".

Definition outside_program : list Node :=
[mkNode 0 10 (VariableDeclaration "let" [mkVariableDeclarator (mkNode 4 5
(Identifier "x")) (Some (mkNode 8 9 NumericLiteral))]); mkNode 11 53
(ExpressionStatement (mkNode 11 53 (CallExpression (mkNode 11 14 (Identifier
"app")) [mkNode 15 52 (ArrowFunctionExpression [] (mkNode 21 52
(BlockStatement [mkNode 23 40 (BlockStatement [mkNode 25 35
(VariableDeclaration "let" [mkVariableDeclarator (mkNode 29 30 (Identifier
"x")) (Some (mkNode 33 34 NumericLiteral))]); mkNode 36 38
(ExpressionStatement (mkNode 36 37 (Identifier "x")))]); mkNode 41 50
(ReturnStatement (Some (mkNode 48 49 (Identifier "x"))))])))])))].

Definition param_src : string :=
"let x = 1; app((x) => x)".

Definition param_program : list Node :=
[mkNode 0 10 (VariableDeclaration "let" [mkVariableDeclarator (mkNode 4 5
(Identifier "x")) (Some (mkNode 8 9 NumericLiteral))]); mkNode 11 24
(ExpressionStatement (mkNode 11 24 (CallExpression (mkNode 11 14 (Identifier
"app")) [mkNode 15 23 (ArrowFunctionExpression [mkNode 16 17 (Identifier
"x")] (mkNode 22 23 (Identifier "x")))])))].

Definition fnexpr_src : string :=
"let x = 1; app(function (x) { return x; })".

Definition fnexpr_program : list Node :=
[mkNode 0 10 (VariableDeclaration "let" [mkVariableDeclarator (mkNode 4 5
(Identifier "x")) (Some (mkNode 8 9 NumericLiteral))]); mkNode 11 42
(ExpressionStatement (mkNode 11 42 (CallExpression (mkNode 11 14 (Identifier
"app")) [mkNode 15 41 (FunctionExpression [mkNode 25 26 (Identifier "x")]
(mkNode 28 41 (BlockStatement [mkNode 30 39 (ReturnStatement (Some (mkNode
37 38 (Identifier "x"))))])))])))].

Definition initializer_src : string :=
"let x = 1; app(() => { let x = x + 1; })".

Definition initializer_program : list Node :=
[mkNode 0 10 (VariableDeclaration "let" [mkVariableDeclarator (mkNode 4 5
(Identifier "x")) (Some (mkNode 8 9 NumericLiteral))]); mkNode 11 40
(ExpressionStatement (mkNode 11 40 (CallExpression (mkNode 11 14 (Identifier
"app")) [mkNode 15 39 (ArrowFunctionExpression [] (mkNode 21 39
(BlockStatement [mkNode 23 37 (VariableDeclaration "let"
[mkVariableDeclarator (mkNode 27 28 (Identifier "x")) (Some (mkNode 31 36
(BinaryExpression (mkNode 31 32 (Identifier "x")) (mkNode 35 36
NumericLiteral))))])])))])))].

Definition catch_src : string :=
"let e = 1; app(() => { try { } catch (e) { e; } })".

Definition catch_program : list Node :=
[mkNode 0 10 (VariableDeclaration "let" [mkVariableDeclarator (mkNode 4 5
(Identifier "e")) (Some (mkNode 8 9 NumericLiteral))]); mkNode 11 50
(ExpressionStatement (mkNode 11 50 (CallExpression (mkNode 11 14 (Identifier
"app")) [mkNode 15 49 (ArrowFunctionExpression [] (mkNode 21 49
(BlockStatement [mkNode 23 47 (TryStatement (mkNode 27 30 (BlockStatement
[])) (Some (mkCatchClause (Some (mkNode 38 39 (Identifier "e"))) (mkNode 41
47 (BlockStatement [mkNode 43 45 (ExpressionStatement (mkNode 43 44
(Identifier "e")))])))) None)])))])))].

Definition forof_src : string :=
"let x = 1; app(() => { for (const x of []) { } x; })".

Definition forof_program : list Node :=
[mkNode 0 10 (VariableDeclaration "let" [mkVariableDeclarator (mkNode 4 5
(Identifier "x")) (Some (mkNode 8 9 NumericLiteral))]); mkNode 11 52
(ExpressionStatement (mkNode 11 52 (CallExpression (mkNode 11 14 (Identifier
"app")) [mkNode 15 51 (ArrowFunctionExpression [] (mkNode 21 51
(BlockStatement [mkNode 23 46 (ForOfStatement (mkNode 28 35
(VariableDeclaration "const" [mkVariableDeclarator (mkNode 34 35 (Identifier
"x")) (None)])) (mkNode 39 41 (ArrayExpression [])) (mkNode 43 46
(BlockStatement []))); mkNode 47 49 (ExpressionStatement (mkNode 47 48
(Identifier "x")))])))])))].

Definition forin_src : string :=
"let x = 1; app(() => { for (const x in {}) { } x; })".

Definition forin_program : list Node :=
[mkNode 0 10 (VariableDeclaration "let" [mkVariableDeclarator (mkNode 4 5
(Identifier "x")) (Some (mkNode 8 9 NumericLiteral))]); mkNode 11 52
(ExpressionStatement (mkNode 11 52 (CallExpression (mkNode 11 14 (Identifier
"app")) [mkNode 15 51 (ArrowFunctionExpression [] (mkNode 21 51
(BlockStatement [mkNode 23 46 (ForInStatement (mkNode 28 35
(VariableDeclaration "const" [mkVariableDeclarator (mkNode 34 35 (Identifier
"x")) (None)])) (mkNode 39 41 (ObjectExpression [])) (mkNode 43 46
(BlockStatement []))); mkNode 47 49 (ExpressionStatement (mkNode 47 48
(Identifier "x")))])))])))].

Definition kinds_src : string :=
"const a = 1; let b = 2; import {c} from 'm';".


Definition appvar_src : string :=
"const app = make(); app(() => {})".

Definition appvar_program : list Node :=
[mkNode 0 19 (VariableDeclaration "const" [mkVariableDeclarator (mkNode 6 9
(Identifier "app")) (Some (mkNode 12 18 (CallExpression (mkNode 12 16
(Identifier "make")) [])))]); mkNode 20 33 (ExpressionStatement (mkNode 20
33 (CallExpression (mkNode 20 23 (Identifier "app")) [mkNode 24 32
(ArrowFunctionExpression [] (mkNode 30 32 (BlockStatement [])))])))].

Definition appimport_src : string :=
"import {app} from 'lib'; app(() => {})".

Definition appimport_program : list Node :=
[mkNode 0 24 (ImportDeclaration (Some "value") [mkImportSpecifier "app"]);
mkNode 25 38 (ExpressionStatement (mkNode 25 38 (CallExpression (mkNode 25
28 (Identifier "app")) [mkNode 29 37 (ArrowFunctionExpression [] (mkNode 35
37 (BlockStatement [])))])))].

Definition plain_src : string :=
"app(() => {})".

Definition plain_program : list Node :=
[mkNode 0 13 (ExpressionStatement (mkNode 0 13 (CallExpression (mkNode 0 3
(Identifier "app")) [mkNode 4 12 (ArrowFunctionExpression [] (mkNode 10 12
(BlockStatement [])))])))].

Definition chained_src : string :=
"app.config({}).run(() => {})".

Definition chained_program : list Node :=
[mkNode 0 28 (ExpressionStatement (mkNode 0 28 (CallExpression (mkNode 0 18
(MemberExpression (mkNode 0 14 (CallExpression (mkNode 0 10
(MemberExpression (mkNode 0 3 (Identifier "app")) (mkNode 4 10 (Identifier
"config")))) [mkNode 11 13 (ObjectExpression [])])) (mkNode 15 18
(Identifier "run")))) [mkNode 19 27 (ArrowFunctionExpression [] (mkNode 25
27 (BlockStatement [])))])))].

Definition curried_src : string :=
"app()(() => {})".

Definition curried_program : list Node :=
[mkNode 0 15 (ExpressionStatement (mkNode 0 15 (CallExpression (mkNode 0 5
(CallExpression (mkNode 0 3 (Identifier "app")) [])) [mkNode 6 14
(ArrowFunctionExpression [] (mkNode 12 14 (BlockStatement [])))])))].

Definition noentry_src : string :=
"let x = 1; f(x);".

Definition noentry_program : list Node :=
[mkNode 0 10 (VariableDeclaration "let" [mkVariableDeclarator (mkNode 4 5
(Identifier "x")) (Some (mkNode 8 9 NumericLiteral))]); mkNode 11 16
(ExpressionStatement (mkNode 11 15 (CallExpression (mkNode 11 12 (Identifier
"f")) [mkNode 13 14 (Identifier "x")])))].

Definition classdecl_src : string :=
"app(() => { class C { } })".

Definition classdecl_program : list Node :=
[mkNode 0 26 (ExpressionStatement (mkNode 0 26 (CallExpression (mkNode 0 3
(Identifier "app")) [mkNode 4 25 (ArrowFunctionExpression [] (mkNode 10 25
(BlockStatement [mkNode 12 23 ClassDeclaration])))])))].

Definition classexpr_src : string :=
"app(() => { const C = class { }; })".

Definition classexpr_program : list Node :=
[mkNode 0 35 (ExpressionStatement (mkNode 0 35 (CallExpression (mkNode 0 3
(Identifier "app")) [mkNode 4 34 (ArrowFunctionExpression [] (mkNode 10 34
(BlockStatement [mkNode 12 32 (VariableDeclaration "const"
[mkVariableDeclarator (mkNode 18 19 (Identifier "C")) (Some (mkNode 22 31
ClassExpression))])])))])))].

Definition noarg_src : string :=
"app();".

Definition noarg_program : list Node :=
[mkNode 0 6 (ExpressionStatement (mkNode 0 5 (CallExpression (mkNode 0 3
(Identifier "app")) [])))].

(** The text the synthesizers write. *)
Definition header : string := "export default (__locals__) =>".

Definition seal_x : string :=
"export default Object.seal({get x() { return x },set x(v) { x = v },})".

Definition seal_e : string :=
"export default Object.seal({get e() { return e },set e(v) { e = v },})".

Definition seal_none : string := "export default Object.seal({})".

(** A parser that knows one script only. *)
Definition parser (program : list Node) : string -> list Node :=
fun _ => program.

End Scripts.

(** ** Induction on the syntax tree *)

(** [allChildren P t]: every node held by the fields of [t] satisfies [P]. *)
Definition allChildren (P : Node -> Prop) (t : NodeType) : Prop :=
  match t with
  | ArrayExpression elements | ArrayPattern elements
  | TSEnumDeclaration elements =>
      Forall (from_option P True) elements
  | AssignmentExpression a b | BinaryExpression a b | LogicalExpression a b
  | MemberExpression a b | TaggedTemplateExpression a b
  | OptionalMemberExpression a b | AssignmentPattern a b
  | DoWhileStatement a b | WhileStatement a b | WithStatement a b =>
      P a /\ P b
  | ObjectProperty a b _ _ => P a /\ P b
  | CallExpression callee arguments | NewExpression callee arguments
  | OptionalCallExpression callee arguments =>
      P callee /\ Forall P arguments
  | ConditionalExpression a b c | ForInStatement a b c
  | ForOfStatement a b c =>
      P a /\ P b /\ P c
  | FunctionExpression params body | ArrowFunctionExpression params body
  | ObjectMethod params body | FunctionDeclaration params body =>
      Forall P params /\ P body
  | ObjectExpression l | SequenceExpression l | TemplateLiteral l
  | ObjectPattern l | BlockStatement l =>
      Forall P l
  | ParenthesizedExpression a | UnaryExpression a | UpdateExpression a
  | AwaitExpression a | TypeCastExpression a | TSInstantiationExpression a
  | TSAsExpression a | TSSatisfiesExpression a | TSTypeAssertion a
  | TSNonNullExpression a | RestElement a | SpreadElement a
  | ExpressionStatement a | LabeledStatement a | ThrowStatement a =>
      P a
  | YieldExpression o | ReturnStatement o => from_option P True o
  | ForStatement init test update body =>
      from_option P True init /\ from_option P True test /\
      from_option P True update /\ P body
  | IfStatement test consequent alternate =>
      P test /\ P consequent /\ from_option P True alternate
  | SwitchStatement discriminant cases =>
      P discriminant /\
      Forall (fun c => from_option P True (c_test c) /\
                       Forall P (c_consequent c)) cases
  | TryStatement block handler finalizer =>
      P block /\
      from_option (fun h => from_option P True (h_param h) /\ P (h_body h))
        True handler /\
      from_option P True finalizer
  | VariableDeclaration _ declarations =>
      Forall (fun d => P (d_id d) /\ from_option P True (d_init d))
        declarations
  | _ => True
  end.

(** [thrown Q r]: if [r] is a throw, the thrown value satisfies [Q]. *)
Definition thrown {A : Type} (Q : Exn -> Prop) (r : Result A) : Prop :=
  match r with
  | Ok _ => True
  | Throw e => Q e
  end.

(** The failure of the locator. *)
Definition EntryPointNotFound : Exn := Error "No app() call found".

(** What the binding extractor and the rewriter may throw: an [Error]
    whose message is not the locator's. *)
Definition laterError (e : Exn) : Prop :=
  match e with
  | Error message => message <> "No app() call found"
  | TypeError => False
  end.

(** The four recursive functions of the rewriter throw within [Q] on
    [ast]. *)
Definition rewriterThrows (Q : Exn -> Prop) (ast : Node) : Prop :=
  forall src bindings,
    thrown Q (processStmt ast src bindings) /\
    thrown Q (processExpr ast src bindings) /\
    thrown Q (processLVal ast src bindings) /\
    thrown Q (processDeclarationId ast src bindings).

(** The arguments of a call expression. *)
Definition callArguments (ast : Node) : list Node :=
  match type ast with
  | CallExpression _ arguments => arguments
  | _ => []
  end.

(** The spec's words: a callee is app-rooted if it is the identifier
    [app], or a call whose callee is app-rooted, or a member access whose
    object is app-rooted. *)
Inductive AppRooted : Node -> Prop :=
| AppRooted_app s e : AppRooted (mkNode s e (Identifier "app"))
| AppRooted_call s e callee arguments :
    AppRooted callee ->
    AppRooted (mkNode s e (CallExpression callee arguments))
| AppRooted_member s e object property :
    AppRooted object ->
    AppRooted (mkNode s e (MemberExpression object property)).

(** The spec's words: [statement] is a bare call expression, the call
    [expression], whose callee is app-rooted. *)
Definition EntryStatement (statement expression : Node) : Prop :=
  exists callee arguments,
    type statement = ExpressionStatement expression /\
    type expression = CallExpression callee arguments /\
    AppRooted callee.

(** [f] only pushes: what it returns on [bindings] is [bindings] followed
    by what it returns on the empty list. *)
Definition pushes {A : Type} (f : A -> list Binding -> Result (list Binding))
    : Prop :=
  forall x bindings,
    f x bindings = let* new := f x [] in Ok (bindings ++ new).

(** ** What the rewriter leaves in the buffer *)

(** An edit that replaces a range by the locals access of a name of
    [bindings], alone or after the key of a shorthand entry. *)
Definition rewriteOf (bindings : Bindings) (edit : MagicString.Edit) : Prop :=
  exists s e x,
    x ∈ bindings /\
    (edit = MagicString.Update s e (getLocalsName x) \/
     edit = MagicString.Update s e (x +:+ ":" +:+ getLocalsName x)).

(** [src'] is [src] with more edits scheduled, each a rewrite of a name of
    [bindings]; the original text is the same. *)
Definition extends (bindings : Bindings) (src src' : MagicString) : Prop :=
  MagicString.original src' = MagicString.original src /\
  exists new,
    MagicString.edits src' = MagicString.edits src ++ new /\
    Forall (rewriteOf bindings) new.

(** [okR post r]: if [r] is a result, it satisfies [post]. *)
Definition okR {A : Type} (post : A -> Prop) (r : Result A) : Prop :=
  match r with
  | Ok a => post a
  | Throw _ => True
  end.

Definition postE (bindings : Bindings) (src : MagicString)
    (src' : MagicString) : Prop :=
  extends bindings src src'.

Definition postS (bindings : Bindings) (src : MagicString)
    (r : MagicString * Bindings) : Prop :=
  extends bindings src r.1 /\ r.2 ⊆ bindings.

(** Started from a buffer that extends [src0] and from a snapshot within
    [bindings0], each of the four recursive functions returns a buffer that
    extends [src0] and a snapshot within [bindings0]. *)
Definition rewriterExtends (ast : Node) : Prop :=
  forall bindings0 src0 src bindings,
    extends bindings0 src0 src ->
    bindings ⊆ bindings0 ->
    okR (postS bindings0 src0) (processStmt ast src bindings) /\
    okR (postE bindings0 src0) (processExpr ast src bindings) /\
    okR (postE bindings0 src0) (processLVal ast src bindings) /\
    okR (postS bindings0 src0) (processDeclarationId ast src bindings).

(** ** More scripts *)
Module MoreScripts.

Definition twice_src : string :=
  "app(() => {}); app(() => {})".

Definition twice_program : list Node :=
  [mkNode 0 14 (ExpressionStatement (mkNode 0 13 (CallExpression (mkNode 0 3
  (Identifier "app")) [mkNode 4 12 (ArrowFunctionExpression [] (mkNode 10 12
  (BlockStatement [])))]))); mkNode 15 28 (ExpressionStatement (mkNode 15 28
  (CallExpression (mkNode 15 18 (Identifier "app")) [mkNode 19 27
  (ArrowFunctionExpression [] (mkNode 25 27 (BlockStatement [])))])))].

Definition patterns_src : string :=
  "const {a: b, c, ...d} = o; const [e] = o; app(() => {})".

Definition patterns_program : list Node :=
  [mkNode 0 26 (VariableDeclaration "const" [mkVariableDeclarator (mkNode 6 21
  (ObjectPattern [mkNode 7 11 (ObjectProperty (mkNode 7 8 (Identifier "a"))
  (mkNode 10 11 (Identifier "b")) false false); mkNode 13 14 (ObjectProperty
  (mkNode 13 14 (Identifier "c")) (mkNode 13 14 (Identifier "c")) false true);
  mkNode 16 20 (RestElement (mkNode 19 20 (Identifier "d")))])) (Some (mkNode
  24 25 (Identifier "o")))]); mkNode 27 41 (VariableDeclaration "const"
  [mkVariableDeclarator (mkNode 33 36 (ArrayPattern [Some (mkNode 34 35
  (Identifier "e"))])) (Some (mkNode 39 40 (Identifier "o")))]); mkNode 42 55
  (ExpressionStatement (mkNode 42 55 (CallExpression (mkNode 42 45 (Identifier
  "app")) [mkNode 46 54 (ArrowFunctionExpression [] (mkNode 52 54
  (BlockStatement [])))])))].

End MoreScripts.

(** ** Scripts for what the rewriter does not reach *)
Module Unreached.

Definition forofbody_src : string :=
"let x = 1; app(() => { for (const y of []) { x; } })".

Definition forofbody_program : list Node :=
[mkNode 0 10 (VariableDeclaration "let" [mkVariableDeclarator (mkNode 4 5
(Identifier "x")) (Some (mkNode 8 9 NumericLiteral))]); mkNode 11 52
(ExpressionStatement (mkNode 11 52 (CallExpression (mkNode 11 14 (Identifier
"app")) [mkNode 15 51 (ArrowFunctionExpression [] (mkNode 21 51
(BlockStatement [mkNode 23 49 (ForOfStatement (mkNode 28 35
(VariableDeclaration "const" [mkVariableDeclarator (mkNode 34 35 (Identifier
"y")) None])) (mkNode 39 41 (ArrayExpression [])) (mkNode 43 49
(BlockStatement [mkNode 45 47 (ExpressionStatement (mkNode 45 46 (Identifier
"x")))])))])))])))].

Definition forinbody_src : string :=
"let x = 1; app(() => { for (const y in {}) { x; } })".

Definition forinbody_program : list Node :=
[mkNode 0 10 (VariableDeclaration "let" [mkVariableDeclarator (mkNode 4 5
(Identifier "x")) (Some (mkNode 8 9 NumericLiteral))]); mkNode 11 52
(ExpressionStatement (mkNode 11 52 (CallExpression (mkNode 11 14 (Identifier
"app")) [mkNode 15 51 (ArrowFunctionExpression [] (mkNode 21 51
(BlockStatement [mkNode 23 49 (ForInStatement (mkNode 28 35
(VariableDeclaration "const" [mkVariableDeclarator (mkNode 34 35 (Identifier
"y")) None])) (mkNode 39 41 (ObjectExpression [])) (mkNode 43 49
(BlockStatement [mkNode 45 47 (ExpressionStatement (mkNode 45 46 (Identifier
"x")))])))])))])))].

Definition forofdecl_src : string :=
"let x = 1; app(() => { for (const y of []) { let x = x + 1; } })".

Definition forofdecl_program : list Node :=
[mkNode 0 10 (VariableDeclaration "let" [mkVariableDeclarator (mkNode 4 5
(Identifier "x")) (Some (mkNode 8 9 NumericLiteral))]); mkNode 11 64
(ExpressionStatement (mkNode 11 64 (CallExpression (mkNode 11 14 (Identifier
"app")) [mkNode 15 63 (ArrowFunctionExpression [] (mkNode 21 63
(BlockStatement [mkNode 23 61 (ForOfStatement (mkNode 28 35
(VariableDeclaration "const" [mkVariableDeclarator (mkNode 34 35 (Identifier
"y")) None])) (mkNode 39 41 (ArrayExpression [])) (mkNode 43 61
(BlockStatement [mkNode 45 59 (VariableDeclaration "let"
[mkVariableDeclarator (mkNode 49 50 (Identifier "x")) (Some (mkNode 53 58
(BinaryExpression (mkNode 53 54 (Identifier "x")) (mkNode 57 58
NumericLiteral))))])])))])))])))].

Definition forindecl_src : string :=
"let x = 1; app(() => { for (const y in {}) { let x = x + 1; } })".

Definition forindecl_program : list Node :=
[mkNode 0 10 (VariableDeclaration "let" [mkVariableDeclarator (mkNode 4 5
(Identifier "x")) (Some (mkNode 8 9 NumericLiteral))]); mkNode 11 64
(ExpressionStatement (mkNode 11 64 (CallExpression (mkNode 11 14 (Identifier
"app")) [mkNode 15 63 (ArrowFunctionExpression [] (mkNode 21 63
(BlockStatement [mkNode 23 61 (ForInStatement (mkNode 28 35
(VariableDeclaration "const" [mkVariableDeclarator (mkNode 34 35 (Identifier
"y")) None])) (mkNode 39 41 (ObjectExpression [])) (mkNode 43 61
(BlockStatement [mkNode 45 59 (VariableDeclaration "let"
[mkVariableDeclarator (mkNode 49 50 (Identifier "x")) (Some (mkNode 53 58
(BinaryExpression (mkNode 53 54 (Identifier "x")) (mkNode 57 58
NumericLiteral))))])])))])))])))].

Definition dowhile_src : string :=
"let x = 1; app(() => { do { } while (x); })".

Definition dowhile_program : list Node :=
[mkNode 0 10 (VariableDeclaration "let" [mkVariableDeclarator (mkNode 4 5
(Identifier "x")) (Some (mkNode 8 9 NumericLiteral))]); mkNode 11 43
(ExpressionStatement (mkNode 11 43 (CallExpression (mkNode 11 14 (Identifier
"app")) [mkNode 15 42 (ArrowFunctionExpression [] (mkNode 21 42
(BlockStatement [mkNode 23 40 (DoWhileStatement (mkNode 37 38 (Identifier
"x")) (mkNode 26 29 (BlockStatement [])))])))])))].

Definition while_src : string :=
"let x = 1; app(() => { while (x) { } })".

Definition while_program : list Node :=
[mkNode 0 10 (VariableDeclaration "let" [mkVariableDeclarator (mkNode 4 5
(Identifier "x")) (Some (mkNode 8 9 NumericLiteral))]); mkNode 11 39
(ExpressionStatement (mkNode 11 39 (CallExpression (mkNode 11 14 (Identifier
"app")) [mkNode 15 38 (ArrowFunctionExpression [] (mkNode 21 38
(BlockStatement [mkNode 23 36 (WhileStatement (mkNode 30 31 (Identifier
"x")) (mkNode 33 36 (BlockStatement [])))])))])))].

Definition member_src : string :=
"let x = 1; app(() => { o.x; })".

Definition member_program : list Node :=
[mkNode 0 10 (VariableDeclaration "let" [mkVariableDeclarator (mkNode 4 5
(Identifier "x")) (Some (mkNode 8 9 NumericLiteral))]); mkNode 11 30
(ExpressionStatement (mkNode 11 30 (CallExpression (mkNode 11 14 (Identifier
"app")) [mkNode 15 29 (ArrowFunctionExpression [] (mkNode 21 29
(BlockStatement [mkNode 23 27 (ExpressionStatement (mkNode 23 26
(MemberExpression (mkNode 23 24 (Identifier "o")) (mkNode 25 26 (Identifier
"x")))))])))])))].

Definition calleeclass_src : string :=
"app.config(() => { class C {} })();".

Definition calleeclass_program : list Node :=
[mkNode 0 35 (ExpressionStatement (mkNode 0 34 (CallExpression (mkNode 0 32
(CallExpression (mkNode 0 10 (MemberExpression (mkNode 0 3 (Identifier
"app")) (mkNode 4 10 (Identifier "config")))) [mkNode 11 31
(ArrowFunctionExpression [] (mkNode 17 31 (BlockStatement [mkNode 19 29
ClassDeclaration])))])) [])))].

End Unreached.

(** ** Statement kinds and declaration targets *)

(** The statement kinds whose case hands the set it received to what it
    processes and returns that set as it is left. *)
Definition sharesItsSnapshot (ast : Node) : bool :=
  match type ast with
  | VariableDeclaration _ _ | DoWhileStatement _ _ | LabeledStatement _
  | TryStatement _ _ _ | ForOfStatement _ _ _ => true
  | _ => false
  end.

Definition isIdentifier (ast : Node) : bool :=
  match type ast with Identifier _ => true | _ => false end.

(** The entries of a top-level object pattern and the declaration targets
    on which the binding extractor does not throw. *)
Definition supportedProperty (property : Node) : bool :=
  match type property with
  | RestElement argument => isIdentifier argument
  | ObjectProperty key _ _ _ => isIdentifier key
  | _ => true
  end.

Definition supportedTarget (id : Node) : bool :=
  match type id with
  | ObjectPattern properties => forallb supportedProperty properties
  | RestElement _ | AssignmentPattern _ _ | TSParameterProperty
  | TSAsExpression _ | TSSatisfiesExpression _ | TSTypeAssertion _
  | TSNonNullExpression _ => false
  | _ => true
  end.

Definition supportedStatement (statement : Node) : bool :=
  match type statement with
  | VariableDeclaration _ declarations =>
      forallb (fun d => supportedTarget (d_id d)) declarations
  | _ => true
  end.

(** An entry of an object pattern that the extractor accepts: a property
    with an identifier key, whatever its value and flags, or a rest element
    with an identifier argument. *)
Inductive PatternEntry : Type :=
| KeyedEntry (s e ks ke : nat) (key : string) (value : Node)
    (computed shorthand : bool)
| RestEntry (s e rs re : nat) (argument : string).

Definition entryNode (entry : PatternEntry) : Node :=
  match entry with
  | KeyedEntry s e ks ke key value computed shorthand =>
      mkNode s e
        (ObjectProperty (mkNode ks ke (Identifier key)) value computed
           shorthand)
  | RestEntry s e rs re argument =>
      mkNode s e (RestElement (mkNode rs re (Identifier argument)))
  end.

Definition entryName (entry : PatternEntry) : string :=
  match entry with
  | KeyedEntry _ _ _ _ key _ _ _ => key
  | RestEntry _ _ _ _ argument => argument
  end.

(** The text [appendExport] adds for one binding. *)
Definition exportEntry (b : Binding) : string :=
  if readonly b then name b +:+ ","
  else
    ("get " +:+ name b +:+ "() { return " +:+ name b +:+ " },") +:+
    "set " +:+ name b +:+ "(v) { " +:+ name b +:+ " = v },".

(** ** The messages of the pass *)

(** The messages the rewriter throws with. *)
Definition rewriterMessage (message : string) : bool :=
  String.prefix "Not implemented: " message ||
  existsb (String.eqb message)
    ["Cannot export from app main";
     "Cannot import from app main";
     "Object property must be an identifier";
     "Unsupported declaration type: MemberExpression";
     "Rest element must be an identifier in variable decl";
     "Object property must be an identifier in variable decl";
     "Object property must be a pattern in variable decl"].

Definition rewriterError (e : Exn) : Prop :=
  match e with
  | Error message => rewriterMessage message = true
  | TypeError => False
  end.

(** ** Two runs of the rewriter *)

Definition addEdits (src : MagicString) (new : list MagicString.Edit) :
    MagicString :=
  MagicString.mk (MagicString.original src) (MagicString.edits src ++ new).

(** Both throw the same value, or both return and the results satisfy
    [post]. *)
Definition agree {A : Type} (post : A -> A -> Prop) (r1 r2 : Result A) :
    Prop :=
  match r1, r2 with
  | Ok a1, Ok a2 => post a1 a2
  | Throw e1, Throw e2 => e1 = e2
  | _, _ => False
  end.

(** The two buffers are the two base buffers with the same edits added. *)
Definition sameDelta (base1 base2 src1 src2 : MagicString) : Prop :=
  exists new, src1 = addEdits base1 new /\ src2 = addEdits base2 new.

Definition agreeS (base1 base2 : MagicString)
    (r1 r2 : MagicString * Bindings) : Prop :=
  sameDelta base1 base2 r1.1 r2.1 /\ r1.2 = r2.2.

(** Two runs of the four recursive functions on one node with one
    snapshot, from buffers that have had the same edits added, agree. *)
Definition rewriterAgrees (ast : Node) : Prop :=
  forall base1 base2 src1 src2 bindings,
    sameDelta base1 base2 src1 src2 ->
    agree (agreeS base1 base2)
      (processStmt ast src1 bindings) (processStmt ast src2 bindings) /\
    agree (sameDelta base1 base2)
      (processExpr ast src1 bindings) (processExpr ast src2 bindings) /\
    agree (sameDelta base1 base2)
      (processLVal ast src1 bindings) (processLVal ast src2 bindings) /\
    agree (agreeS base1 base2)
      (processDeclarationId ast src1 bindings)
      (processDeclarationId ast src2 bindings).

Lemma Node_children_ind (P : Node -> Prop) :
  (forall s e t, allChildren P t -> P (mkNode s e t)) ->
  forall ast, P ast.
Proof.
  intros step. fix IH 1. intros [s e t]. apply step.
  assert (opt : forall o : option Node, from_option P True o)
    by (intros [n|]; simpl; [apply IH | exact I]).
  assert (all : forall l : list Node, Forall P l)
    by (induction l; constructor; [apply IH | assumption]).
  assert (allo : forall l : list (option Node), Forall (from_option P True) l)
    by (induction l; constructor; [apply opt | assumption]).
  destruct t; simpl; repeat split;
    try apply IH; try apply opt; try apply all; try apply allo.
  - induction cases as [|[ct cc] cases IHc]; constructor; [|assumption].
    simpl. split; [apply opt | apply all].
  - destruct handler as [[hp hb]|]; simpl; [|exact I].
    split; [apply opt | apply IH].
  - induction declarations as [|[di dn] ds IHd]; constructor; [|assumption].
    simpl. split; [apply IH | apply opt].
Qed.

Lemma allChildren_impl (P Q : Node -> Prop) (t : NodeType) :
  (forall n, P n -> Q n) -> allChildren P t -> allChildren Q t.
Proof.
  intros PQ.
  assert (opt : forall o : option Node,
             from_option P True o -> from_option Q True o)
    by (intros [n|]; simpl; auto).
  assert (all : forall l : list Node, Forall P l -> Forall Q l)
    by (intros l Hl; eapply Forall_impl; eauto).
  destruct t; simpl; intros H;
    repeat match goal with H : _ /\ _ |- _ => destruct H end;
    repeat split; auto.
  - eapply Forall_impl; [eassumption|]. intros [n|]; simpl; auto.
  - eapply Forall_impl; [eassumption|]. intros [n|]; simpl; auto.
  - eapply Forall_impl; [eassumption|]. simpl. intros c [? ?]. auto.
  - destruct handler as [h|]; simpl in *; [|exact I].
    intuition auto.
  - eapply Forall_impl; [eassumption|]. simpl. intros d [? ?]. auto.
  - eapply Forall_impl; [eassumption|]. intros [n|]; simpl; auto.
Qed.

(** The same induction with the hypothesis on the children and on the
    children of the children: the rewriter looks two levels down (the
    argument of a spread element, the key and value of a property, the
    declarations of a loop header). *)
Lemma Node_children2_ind (P : Node -> Prop) :
  (forall s e t,
      allChildren (fun c => P c /\ allChildren P (type c)) t ->
      P (mkNode s e t)) ->
  forall ast, P ast.
Proof.
  intros step ast.
  enough (P ast /\ allChildren P (type ast)) by tauto.
  induction ast as [s e t IH] using Node_children_ind.
  split; [apply step; exact IH|].
  simpl. eapply allChildren_impl; [|exact IH]. simpl. tauto.
Qed.

(** ** Results and loops *)

Lemma thrown_bind {A B : Type} (Q : Exn -> Prop) (r : Result A)
    (k : A -> Result B) :
  thrown Q r -> (forall a, thrown Q (k a)) -> thrown Q (bind r k).
Proof. destruct r; simpl; auto. Qed.

Lemma thrown_forEach {A S : Type} (Q : Exn -> Prop)
    (f : A -> S -> Result S) (l : list A) :
  Forall (fun x => forall s, thrown Q (f x s)) l ->
  forall s, thrown Q (forEach f l s).
Proof.
  induction 1 as [|x l Hx _ IH]; intros s; simpl; [exact I|].
  apply thrown_bind; auto.
Qed.

Lemma forEach_app {A S : Type} (f : A -> S -> Result S) (l1 l2 : list A)
    (s : S) :
  forEach f (l1 ++ l2) s = let* s1 := forEach f l1 s in forEach f l2 s1.
Proof.
  revert s. induction l1 as [|x l1 IH]; intros s; simpl; [reflexivity|].
  destruct (f x s); simpl; auto.
Qed.


(** ** What the rewriter throws *)

Lemma processVariableDeclaration_thrown (Q : Exn -> Prop)
    (declarations : list (VariableDeclarator Node)) :
  Forall (fun d => rewriterThrows Q (d_id d) /\
                   from_option (rewriterThrows Q) True (d_init d))
    declarations ->
  forall src bindings,
    thrown Q
      (processVariableDeclarationWith processExpr processDeclarationId
         declarations src bindings).
Proof.
  intros H src bindings.
  unfold processVariableDeclarationWith.
  apply thrown_forEach. eapply Forall_impl; [exact H|].
  intros [di [dn|]] [Hi Hn] [s b]; simpl in *.
  - apply thrown_bind; [apply Hn|]. intros s1. apply Hi.
  - apply Hi.
Qed.

Ltac use_children :=
  match goal with
  | H : rewriterThrows ?Q ?n |- thrown ?Q (processStmt ?n ?s ?b) =>
      exact (proj1 (H s b))
  | H : rewriterThrows ?Q ?n |- thrown ?Q (processExpr ?n ?s ?b) =>
      exact (proj1 (proj2 (H s b)))
  | H : rewriterThrows ?Q ?n |- thrown ?Q (processLVal ?n ?s ?b) =>
      exact (proj1 (proj2 (proj2 (H s b))))
  | H : rewriterThrows ?Q ?n |- thrown ?Q (processDeclarationId ?n ?s ?b) =>
      exact (proj2 (proj2 (proj2 (H s b))))
  end.

Ltac split_hyps :=
  repeat match goal with
         | H : _ /\ _ |- _ => destruct H
         end.

Ltac weaken_children :=
  eapply Forall_impl; [eassumption|]; simpl.

(** Reduce the dispatch on a node that has just been destructed, leaving
    the calls of the rewriter on it folded. *)
Ltac dispatch :=
  cbn [type d_init d_id c_test c_consequent h_param h_body];
  repeat match goal with
         | H : allChildren _ (type (mkNode _ _ _)) |- _ =>
             cbn [type allChildren from_option] in H
         | H : from_option _ _ (Some _) |- _ => cbn [from_option] in H
         | H : from_option _ _ None |- _ => clear H
         | H : from_option _ _ (_ (mkVariableDeclarator _ _)) |- _ =>
             cbn [from_option d_init] in H
         | H : from_option _ _ (_ (mkSwitchCase _ _)) |- _ =>
             cbn [from_option c_test] in H
         | H : from_option _ _ (_ (mkCatchClause _ _)) |- _ =>
             cbn [from_option h_param] in H
         | H : context [d_id (mkVariableDeclarator _ _)] |- _ =>
             cbn [d_id] in H
         | H : context [h_body (mkCatchClause _ _)] |- _ =>
             cbn [h_body] in H
         | H : context [c_consequent (mkSwitchCase _ _)] |- _ =>
             cbn [c_consequent] in H
         | H : _ /\ _ |- _ => destruct H
         end.

Ltac thrown_core :=
  match goal with
  | |- True => exact I
  | |- thrown _ (Ok _) => exact I
  | |- thrown laterError (Throw (Error _)) =>
      cbv [thrown laterError typeName type String.append]; discriminate
  | |- thrown _ (processStmt _ _ _) => use_children
  | |- thrown _ (processExpr _ _ _) => use_children
  | |- thrown _ (processLVal _ _ _) => use_children
  | |- thrown _ (processDeclarationId _ _ _) => use_children
  | |- thrown _ (bind _ _) => apply thrown_bind; [|intros]
  | |- _ <> _ => cbv [typeName type String.append]; discriminate
  | |- thrown _ (processVariableDeclarationWith _ _ _ _ _) =>
      apply processVariableDeclaration_thrown;
      first
        [ eassumption
        | weaken_children;
          let d := fresh in
          intros d [[? ?] ?]; split; [assumption|];
          destruct (d_init d); cbn [from_option] in *; tauto ]
  | |- thrown _ (forEach _ _ _) =>
      apply thrown_forEach; weaken_children; intros; split_hyps
  | |- thrown _ (processExprOrPatternLikeWith _ _ _ _ _) =>
      unfold processExprOrPatternLikeWith
  | |- thrown _ (processShorthand _ _ _) => unfold processShorthand
  | |- thrown _ (match type ?c with _ => _ end) =>
      is_var c; destruct c as [? ? []]; dispatch
  | |- thrown _ (match ?p with (_, _) => _ end) =>
      is_var p; destruct p; dispatch
  | |- thrown _ (match ?o with Some _ => _ | None => _ end) =>
      is_var o; destruct o; dispatch
  | |- thrown _ (match d_init ?d with _ => _ end) =>
      is_var d; destruct d as [? []]; dispatch
  | |- thrown _ (match c_test ?d with _ => _ end) =>
      is_var d; destruct d as [[] ?]; dispatch
  | |- thrown _ (match h_param ?d with _ => _ end) =>
      is_var d; destruct d as [[] ?]; dispatch
  | |- thrown _ (if ?c then _ else _) => destruct c
  | H : True |- _ => clear H
  end.

Lemma processArgument_thrown (arg : Node) :
  rewriterThrows laterError arg ->
  allChildren (rewriterThrows laterError) (type arg) ->
  forall src bindings,
    thrown laterError (processArgumentWith processExpr arg src bindings).
Proof.
  intros H Hc src bindings.
  unfold processArgumentWith.
  destruct (isJSXNamespacedName arg); [exact I|].
  repeat thrown_core.
Qed.

Ltac thrown_step :=
  lazymatch goal with
  | |- thrown _ (processArgumentWith _ _ _ _) =>
      apply processArgument_thrown; assumption
  | _ => thrown_core
  end.

Lemma rewriter_thrown (ast : Node) : rewriterThrows laterError ast.
Proof.
  induction ast as [s e t IH] using Node_children2_ind.
  intros src bindings.
  destruct t; simpl in IH; split_hyps;
    (split; [|split; [|split]]); simpl; repeat thrown_step.
Qed.

(** ** The locator *)

Lemma isCalleeApp_AppRooted (callee : Node) :
  isCalleeApp callee = true <-> AppRooted callee.
Proof.
  induction callee as [s e t IH] using Node_children_ind.
  destruct t; simpl in *;
    try (split; [discriminate | inversion 1]).
  - destruct IH as [IH _]. rewrite IH. split.
    + constructor. assumption.
    + inversion 1. assumption.
  - rewrite bool_decide_eq_true. split.
    + intros ->. constructor.
    + inversion 1. reflexivity.
  - destruct IH as [IH _]. rewrite IH. split.
    + constructor. assumption.
    + inversion 1. assumption.
Qed.

Lemma entryCall_Some (statement expression : Node) :
  entryCall statement = Some expression <->
  EntryStatement statement expression.
Proof.
  unfold entryCall, EntryStatement. split.
  - destruct (type statement) eqn:Hs; try discriminate.
    destruct (type expression0) eqn:He; try discriminate.
    destruct (isCalleeApp callee) eqn:Hc; [|discriminate].
    intros [= <-]. exists callee, arguments.
    rewrite <- isCalleeApp_AppRooted. auto.
  - intros (callee & arguments & -> & -> & Hc).
    apply isCalleeApp_AppRooted in Hc. rewrite Hc. reflexivity.
Qed.

Section Locator.
Variable babelParse : string -> list Node.

Lemma parseFrom_none (src : string) (statements rest : list Node)
    (i : nat) :
  Forall (fun st => entryCall st = None) rest ->
  parseFrom src statements rest i = Throw EntryPointNotFound.
Proof.
  intros H. revert i. induction H as [|st rest Hst _ IH]; intros i; simpl.
  - reflexivity.
  - rewrite Hst. apply IH.
Qed.

Lemma parseFrom_first (src : string) (statements pre post : list Node)
    (st expression : Node) (i : nat) :
  Forall (fun st => entryCall st = None) pre ->
  entryCall st = Some expression ->
  parseFrom src statements (pre ++ st :: post) i =
    Ok {| localsAst := delete (i + length pre) statements;
          localsSrc :=
            MagicString.remove (MagicString.new src) (start expression)
              (end_ expression);
          mainAst := expression;
          mainSrc :=
            MagicString.remove
              (MagicString.remove (MagicString.new src) 0
                 (start expression))
              (end_ expression) (String.length src) |}.
Proof.
  intros H Hst. revert i.
  induction H as [|st' pre Hst' _ IH]; intros i; simpl.
  - rewrite Hst. rewrite Nat.add_0_r. reflexivity.
  - rewrite Hst'. rewrite IH. do 3 f_equal. lia.
Qed.

(** A list of statements has no entry call, or has a first one. *)
Lemma entryCall_first (statements : list Node) :
  Forall (fun st => entryCall st = None) statements \/
  exists pre st post expression,
    statements = pre ++ st :: post /\
    Forall (fun st => entryCall st = None) pre /\
    entryCall st = Some expression.
Proof.
  induction statements as [|st rest IH].
  - left. constructor.
  - destruct (entryCall st) as [expression|] eqn:Hst.
    + right. exists [], st, rest, expression. auto.
    + destruct IH as [IH | (pre & st' & post & expression & -> & H1 & H2)].
      * left. constructor; assumption.
      * right. exists (st :: pre), st', post, expression.
        repeat split; auto.
Qed.

Lemma parse_first (src : string) (pre post : list Node)
    (st expression : Node) :
  babelParse src = pre ++ st :: post ->
  Forall (fun st => entryCall st = None) pre ->
  entryCall st = Some expression ->
  parse babelParse src =
    Ok {| localsAst := pre ++ post;
          localsSrc :=
            MagicString.remove (MagicString.new src) (start expression)
              (end_ expression);
          mainAst := expression;
          mainSrc :=
            MagicString.remove
              (MagicString.remove (MagicString.new src) 0
                 (start expression))
              (end_ expression) (String.length src) |}.
Proof.
  intros Heq H1 H2. unfold parse. cbv zeta. rewrite Heq.
  rewrite (parseFrom_first src (pre ++ st :: post) pre post st expression
             0 H1 H2).
  simpl. rewrite (delete_middle pre post st). reflexivity.
Qed.

Lemma parse_Ok_call (src : string) (pr : ParseResult) :
  parse babelParse src = Ok pr ->
  exists callee arguments,
    type (mainAst pr) = CallExpression callee arguments.
Proof.
  destruct (entryCall_first (babelParse src))
    as [H | (pre & st & post & expression & Heq & H1 & H2)].
  - unfold parse. cbv zeta. rewrite parseFrom_none by assumption.
    discriminate.
  - rewrite (parse_first src pre post st expression Heq H1 H2).
    intros [= <-]. simpl.
    apply entryCall_Some in H2 as (callee & arguments & _ & He & _).
    eauto.
Qed.
End Locator.

(** ** What the binding extractor throws *)

Lemma getPropertyBindings_thrown (readonly : bool) (property : Node)
    (bindings : list Binding) :
  thrown laterError (getPropertyBindings readonly property bindings).
Proof.
  unfold getPropertyBindings.
  destruct (type property); try exact I.
  - destruct (type argument); try exact I; simpl; discriminate.
  - destruct (type key); try exact I; simpl; discriminate.
Qed.

Lemma getDeclarationBindings_thrown (localsSrc : MagicString)
    (readonly : bool) (declaration : VariableDeclarator Node)
    (bindings : list Binding) :
  thrown laterError
    (getDeclarationBindings localsSrc readonly declaration bindings).
Proof.
  unfold getDeclarationBindings.
  destruct declaration as [[s e t] init]. simpl.
  destruct t; try exact I;
    try (cbv [thrown laterError typeName type String.append]; discriminate).
  apply thrown_forEach, Forall_forall. intros property _ s0.
  apply getPropertyBindings_thrown.
Qed.

Lemma getStatementBindings_thrown (localsSrc : MagicString)
    (statement : Node) (bindings : list Binding) :
  thrown laterError (getStatementBindings localsSrc statement bindings).
Proof.
  unfold getStatementBindings.
  destruct (type statement); try exact I.
  - apply thrown_forEach, Forall_forall. intros d _ s0.
    apply getDeclarationBindings_thrown.
  - case_bool_decide; [exact I|].
    apply thrown_forEach, Forall_forall. intros sp _ s0.
    case_bool_decide; exact I.
Qed.

Lemma getBindings_thrown (pr : ParseResult) :
  thrown laterError (getBindings pr).
Proof.
  unfold getBindings. apply thrown_forEach, Forall_forall.
  intros st _ s0. apply getStatementBindings_thrown.
Qed.

(** ** The binding extractor pushes in order *)

Lemma forEach_pushes {A : Type}
    (f : A -> list Binding -> Result (list Binding)) :
  pushes f ->
  forall l bindings,
    forEach f l bindings =
      let* new := forEach f l [] in Ok (bindings ++ new).
Proof.
  intros Hf l. induction l as [|x l IH]; intros bindings; simpl.
  - rewrite app_nil_r. reflexivity.
  - rewrite (Hf x bindings). destruct (f x []) as [new|e]; simpl; [|reflexivity].
    rewrite IH. rewrite (IH new).
    destruct (forEach f l []) as [new'|e]; simpl; [|reflexivity].
    rewrite app_assoc. reflexivity.
Qed.

Lemma getPropertyBindings_pushes (readonly : bool) :
  pushes (getPropertyBindings readonly).
Proof.
  intros property bindings. unfold getPropertyBindings, push.
  destruct (type property); simpl; try (rewrite app_nil_r; reflexivity).
  - destruct (type argument); reflexivity.
  - destruct (type key); reflexivity.
Qed.

Lemma getDeclarationBindings_pushes (localsSrc : MagicString)
    (readonly : bool) :
  pushes (getDeclarationBindings localsSrc readonly).
Proof.
  intros [[s e t] init] bindings. unfold getDeclarationBindings, push. simpl.
  destruct t; simpl; try (rewrite app_nil_r; reflexivity); try reflexivity.
  apply forEach_pushes, getPropertyBindings_pushes.
Qed.

Lemma getStatementBindings_pushes (localsSrc : MagicString) :
  pushes (getStatementBindings localsSrc).
Proof.
  intros statement bindings. unfold getStatementBindings.
  destruct (type statement); simpl; try (rewrite app_nil_r; reflexivity).
  - apply forEach_pushes, getDeclarationBindings_pushes.
  - case_bool_decide; simpl; [rewrite app_nil_r; reflexivity|].
    apply forEach_pushes. intros sp bs. unfold push.
    case_bool_decide; simpl; [reflexivity | rewrite app_nil_r; reflexivity].
Qed.



Lemma getImportBindings (specifiers : list ImportSpecifier)
    (bindings : list Binding) :
  forEach
    (fun specifier bindings =>
       if bool_decide (local_name specifier <> "app")
       then Ok (push bindings (mkBinding (local_name specifier) true))
       else Ok bindings)
    specifiers bindings =
    Ok (bindings ++
        map (fun sp => mkBinding (local_name sp) true)
          (filter (fun sp => local_name sp <> "app") specifiers)).
Proof.
  revert bindings.
  induction specifiers as [|sp sps IH]; intros bindings; simpl.
  - rewrite app_nil_r. reflexivity.
  - rewrite filter_cons. case_bool_decide as Hsp; simpl.
    + rewrite decide_True by assumption. rewrite IH. unfold push.
      rewrite <- app_assoc. reflexivity.
    + rewrite decide_False by congruence. apply IH.
Qed.

(** ** What the pass throws *)

Section Pass.
Variable babelParse : string -> list Node.
Variable toString : MagicString -> string.

Lemma compile_thrown (src : string) (pr : ParseResult) :
  parse babelParse src = Ok pr ->
  thrown (fun e => laterError e \/ e = TypeError)
    (compile babelParse toString src).
Proof.
  intros Hp. unfold compile. rewrite Hp. simpl.
  pose proof (getBindings_thrown pr) as Hb.
  destruct (getBindings pr) as [bindings|e]; simpl in *; [|auto].
  pose proof (rewriter_thrown (mainAst pr) (mainSrc pr)
                (list_to_set (map name bindings))) as (_ & He & _).
  destruct (processExpr _ _ _) as [mainSrc1|e]; simpl in *; [|auto].
  unfold wrapMain. simpl.
  destruct (type (mainAst pr)); simpl; auto.
  destruct (arguments !! 0); simpl; auto.
Qed.

Lemma compile_no_entry (src : string) :
  Forall (fun st => entryCall st = None) (babelParse src) ->
  compile babelParse toString src = Throw EntryPointNotFound.
Proof.
  intros H. unfold compile, parse.
  rewrite parseFrom_none by assumption. reflexivity.
Qed.
End Pass.

(** ** The rewriter on its own nodes *)

Lemma update_neq (src : MagicString) (s e : nat) (content : string) :
  MagicString.update src s e content <> src.
Proof.
  destruct src as [o l]. unfold MagicString.update. simpl.
  intros [= H]. apply (f_equal length) in H.
  rewrite length_app in H. simpl in H. lia.
Qed.

Lemma has_deleted (bindings : Bindings) (x : string) :
  has (bindings ∖ {[x]}) x = false.
Proof.
  unfold has. apply bool_decide_eq_false.
  rewrite elem_of_difference, elem_of_singleton. tauto.
Qed.


Lemma processStmts_app (pre rest : list Node) (src : MagicString)
    (bindings : Bindings) :
  processStmts (pre ++ rest) src bindings =
    let* (src0, bindings0) := processStmts pre src bindings in
    processStmts rest src0 bindings0.
Proof.
  unfold processStmts. rewrite forEach_app.
  destruct (forEach _ pre (src, bindings)) as [[src0 bindings0]|];
    reflexivity.
Qed.

Lemma processVariableDeclaration_app
    (declarations1 declarations2 : list (VariableDeclarator Node))
    (src : MagicString) (bindings : Bindings) :
  processVariableDeclaration (declarations1 ++ declarations2) src bindings =
    let* (src1, bindings1) :=
      processVariableDeclaration declarations1 src bindings in
    processVariableDeclaration declarations2 src1 bindings1.
Proof.
  unfold processVariableDeclaration, processVariableDeclarationWith.
  rewrite forEach_app.
  destruct (forEach _ declarations1 (src, bindings)) as [[src1 bindings1]|];
    reflexivity.
Qed.

(** ** Properties of the pass *)

Section Properties.
Variable babelParse : string -> list Node.
Variable toString : MagicString -> string.

(** The core rule, where the rewriter reaches the node.  An identifier
    node at offsets [s..e] is rewritten to the parenthesized locals access
    exactly when its name is in the snapshot it is processed with, and is
    left alone otherwise.  A variable declaration in a block removes its
    name from the block's copy of the snapshot: the statements before it
    and its initializer are processed with the name as the copy has it,
    the statements after it without that name, and the snapshot of the
    enclosing scope is what it was.  In
    [let x = 1; app(() => { let x = 2; return x; })] no reference is
    rewritten; in [let x = 1; app(() => { { let x = 2; x; } return x; })]
    the [x] of the inner block is left alone and the [x] after it, at
    48..49, is rewritten. *)
Lemma identifier_rewritten_iff_in_snapshot :
  (forall s e x src bindings,
      (x ∈ bindings <->
       processExpr (mkNode s e (Identifier x)) src bindings =
         Ok (MagicString.update src s e ("(__locals__." +:+ x +:+ ")"))) /\
      (x ∉ bindings <->
       processExpr (mkNode s e (Identifier x)) src bindings = Ok src)) /\
  (forall s e pre s1 e1 s2 e2 kind x init rest src bindings,
      processStmt
        (mkNode s e
           (BlockStatement
              (pre ++
               mkNode s1 e1
                 (VariableDeclaration kind
                    [mkVariableDeclarator (mkNode s2 e2 (Identifier x))
                       init])
               :: rest)))
        src bindings =
        let* (src0, bindings0) := processStmts pre src bindings in
        let* src1 :=
          match init with
          | Some init => processExpr init src0 bindings0
          | None => Ok src0
          end in
        let* (src2, _) := processStmts rest src1 (bindings0 ∖ {[x]}) in
        Ok (src2, bindings)) /\
  (forall s e x src bindings,
      processExpr (mkNode s e (Identifier x)) src (bindings ∖ {[x]}) =
        Ok src) /\
  compile (Scripts.parser Scripts.shadow_program) toString
    Scripts.shadow_src =
    Ok {| locals :=
            toString
              (MagicString.mk Scripts.shadow_src
                 [MagicString.Remove 11 46;
                  MagicString.Append Scripts.seal_x]);
          main :=
            toString
              (MagicString.mk Scripts.shadow_src
                 [MagicString.Remove 0 11; MagicString.Remove 46 46;
                  MagicString.Update 11 15 Scripts.header;
                  MagicString.Remove 45 46]) |} /\
  compile (Scripts.parser Scripts.outside_program) toString
    Scripts.outside_src =
    Ok {| locals :=
            toString
              (MagicString.mk Scripts.outside_src
                 [MagicString.Remove 11 53;
                  MagicString.Append Scripts.seal_x]);
          main :=
            toString
              (MagicString.mk Scripts.outside_src
                 [MagicString.Remove 0 11; MagicString.Remove 53 53;
                  MagicString.Update 48 49 "(__locals__.x)";
                  MagicString.Update 11 15 Scripts.header;
                  MagicString.Remove 52 53]) |}.
Proof.
  split; [|split; [|split; [|split]]].
  - intros s e x src bindings. simpl.
    unfold updateIfBound, has, getLocalsName, localsName. simpl.
    case_bool_decide as Hx; split; split; try tauto; try reflexivity.
    + intros [= H]. exfalso. eapply update_neq, H.
    + intros [= H]. symmetry in H. exfalso. eapply update_neq, H.
  - intros. simpl.
    change (forEach _ ?body (src, bindings))
      with (processStmts body src bindings).
    rewrite processStmts_app.
    destruct (processStmts pre src bindings) as [[src0 bindings0]|]; simpl;
      [|reflexivity].
    unfold processStmts. simpl.
    unfold processVariableDeclarationWith. simpl.
    destruct init as [init|]; simpl.
    + destruct (processExpr init src0 bindings0); reflexivity.
    + reflexivity.
  - intros. simpl. unfold updateIfBound. rewrite has_deleted.
    reflexivity.
  - vm_compute. reflexivity.
  - vm_compute. reflexivity.
Qed.

(** C1 (the code departs from it).  The rewriter does not reach every
    bare identifier of the argument.  A for...of statement processes its
    right-hand side and its header and never its body, and a do...while
    statement processes its body and never its test: a reference there to
    a name of the snapshot, shadowed by nothing, is left as it is.  In
    [let x = 1; app(() => { for (const y of []) { x; } })] the [x] at
    45..46 is not rewritten, and with [in] for [of] it is; in
    [let x = 1; app(() => { do { } while (x); })] the [x] at 37..38 is not
    rewritten, and in [let x = 1; app(() => { while (x) { } })] the [x] at
    30..31 is.  The other way round, a member expression has its property
    processed as an expression: in [let x = 1; app(() => { o.x; })] the
    property name at 25..26, which refers to no binding, is rewritten. *)
Theorem C1_reference_in_a_for_of_body_is_not_rewritten :
  (forall s e left_ right_ body body' src bindings,
      processStmt (mkNode s e (ForOfStatement left_ right_ body)) src
        bindings =
      processStmt (mkNode s e (ForOfStatement left_ right_ body')) src
        bindings) /\
  (forall s e test test' body src bindings,
      processStmt (mkNode s e (DoWhileStatement test body)) src bindings =
      processStmt (mkNode s e (DoWhileStatement test' body)) src
        bindings) /\
  (forall s e s1 e1 s2 e2 o x src bindings,
      x ∈ bindings ->
      o ∉ bindings ->
      processExpr
        (mkNode s e
           (MemberExpression (mkNode s1 e1 (Identifier o))
              (mkNode s2 e2 (Identifier x))))
        src bindings =
        Ok (MagicString.update src s2 e2 (getLocalsName x))) /\
  compile (Scripts.parser Unreached.forofbody_program) toString
    Unreached.forofbody_src =
    Ok {| locals :=
            toString
              (MagicString.mk Unreached.forofbody_src
                 [MagicString.Remove 11 52;
                  MagicString.Append Scripts.seal_x]);
          main :=
            toString
              (MagicString.mk Unreached.forofbody_src
                 [MagicString.Remove 0 11; MagicString.Remove 52 52;
                  MagicString.Update 11 15 Scripts.header;
                  MagicString.Remove 51 52]) |} /\
  compile (Scripts.parser Unreached.forinbody_program) toString
    Unreached.forinbody_src =
    Ok {| locals :=
            toString
              (MagicString.mk Unreached.forinbody_src
                 [MagicString.Remove 11 52;
                  MagicString.Append Scripts.seal_x]);
          main :=
            toString
              (MagicString.mk Unreached.forinbody_src
                 [MagicString.Remove 0 11; MagicString.Remove 52 52;
                  MagicString.Update 45 46 "(__locals__.x)";
                  MagicString.Update 11 15 Scripts.header;
                  MagicString.Remove 51 52]) |} /\
  compile (Scripts.parser Unreached.dowhile_program) toString
    Unreached.dowhile_src =
    Ok {| locals :=
            toString
              (MagicString.mk Unreached.dowhile_src
                 [MagicString.Remove 11 43;
                  MagicString.Append Scripts.seal_x]);
          main :=
            toString
              (MagicString.mk Unreached.dowhile_src
                 [MagicString.Remove 0 11; MagicString.Remove 43 43;
                  MagicString.Update 11 15 Scripts.header;
                  MagicString.Remove 42 43]) |} /\
  compile (Scripts.parser Unreached.while_program) toString
    Unreached.while_src =
    Ok {| locals :=
            toString
              (MagicString.mk Unreached.while_src
                 [MagicString.Remove 11 39;
                  MagicString.Append Scripts.seal_x]);
          main :=
            toString
              (MagicString.mk Unreached.while_src
                 [MagicString.Remove 0 11; MagicString.Remove 39 39;
                  MagicString.Update 30 31 "(__locals__.x)";
                  MagicString.Update 11 15 Scripts.header;
                  MagicString.Remove 38 39]) |} /\
  compile (Scripts.parser Unreached.member_program) toString
    Unreached.member_src =
    Ok {| locals :=
            toString
              (MagicString.mk Unreached.member_src
                 [MagicString.Remove 11 30;
                  MagicString.Append Scripts.seal_x]);
          main :=
            toString
              (MagicString.mk Unreached.member_src
                 [MagicString.Remove 0 11; MagicString.Remove 30 30;
                  MagicString.Update 25 26 "(__locals__.x)";
                  MagicString.Update 11 15 Scripts.header;
                  MagicString.Remove 29 30]) |}.
Proof.
  split; [|split; [|split; [|split; [|split; [|split; [|split]]]]]].
  - intros. reflexivity.
  - intros. reflexivity.
  - intros * Hx Ho. simpl. unfold updateIfBound, has.
    rewrite (bool_decide_false _ Ho), (bool_decide_true _ Hx). reflexivity.
  - vm_compute. reflexivity.
  - vm_compute. reflexivity.
  - vm_compute. reflexivity.
  - vm_compute. reflexivity.
  - vm_compute. reflexivity.
Qed.

(** C2 (the code departs from it).  The parameters of an arrow function
    and of a function declaration go through [processLVal], which
    rewrites an identifier that is in the snapshot and removes nothing
    from it; a function expression does not look at its parameters at
    all.  In [let x = 1; app((x) => x)] the parameter at 16..17 and the
    reference at 22..23 are both rewritten to the locals access; in
    [let x = 1; app(function (x) { return x; })] the reference at
    37..38 is. *)
Theorem C2_parameter_is_rewritten_and_does_not_shadow :
  (forall s e s1 e1 x body src bindings,
      processExpr
        (mkNode s e
           (ArrowFunctionExpression [mkNode s1 e1 (Identifier x)] body))
        src bindings =
        let src1 :=
          updateIfBound src bindings x s1 e1 (getLocalsName x) in
        match type body with
        | BlockStatement _ =>
            let* (src2, _) := processStmt body src1 bindings in Ok src2
        | _ => processExpr body src1 bindings
        end) /\
  (forall s e params body src bindings,
      processExpr (mkNode s e (FunctionExpression params body)) src
        bindings =
        let* (src1, _) := processStmt body src bindings in Ok src1) /\
  compile (Scripts.parser Scripts.param_program) toString
    Scripts.param_src =
    Ok {| locals :=
            toString
              (MagicString.mk Scripts.param_src
                 [MagicString.Remove 11 24;
                  MagicString.Append Scripts.seal_x]);
          main :=
            toString
              (MagicString.mk Scripts.param_src
                 [MagicString.Remove 0 11; MagicString.Remove 24 24;
                  MagicString.Update 16 17 "(__locals__.x)";
                  MagicString.Update 22 23 "(__locals__.x)";
                  MagicString.Update 11 15 Scripts.header;
                  MagicString.Remove 23 24]) |} /\
  compile (Scripts.parser Scripts.fnexpr_program) toString
    Scripts.fnexpr_src =
    Ok {| locals :=
            toString
              (MagicString.mk Scripts.fnexpr_src
                 [MagicString.Remove 11 42;
                  MagicString.Append Scripts.seal_x]);
          main :=
            toString
              (MagicString.mk Scripts.fnexpr_src
                 [MagicString.Remove 0 11; MagicString.Remove 42 42;
                  MagicString.Update 37 38 "(__locals__.x)";
                  MagicString.Update 11 15 Scripts.header;
                  MagicString.Remove 41 42]) |}.
Proof.
  split; [|split; [|split]].
  - intros. simpl. reflexivity.
  - intros. simpl. reflexivity.
  - vm_compute. reflexivity.
  - vm_compute. reflexivity.
Qed.

(** Where a variable declaration is processed, it is processed
    declarator by declarator, in order.  For a declarator with an
    initializer, the initializer is rewritten with the snapshot as it is
    before the declarator (after the declarators before it), and only
    then is the declared target taken out of the snapshot; a declared
    identifier is taken out without any edit of the buffer.  With [x] in
    the snapshot, [let x = x + 1] has the right-hand [x] rewritten and
    leaves the snapshot without [x]; in
    [let x = 1; app(() => { let x = x + 1; })] the edit is at 31..32. *)
Lemma initializer_rewritten_before_the_name_is_removed :
  (forall s e kind declarations src bindings,
      processStmt (mkNode s e (VariableDeclaration kind declarations)) src
        bindings =
        processVariableDeclaration declarations src bindings) /\
  (forall before id init rest src bindings,
      processVariableDeclaration
        (before ++ mkVariableDeclarator id (Some init) :: rest) src
        bindings =
        let* (src0, bindings0) :=
          processVariableDeclaration before src bindings in
        let* src1 := processExpr init src0 bindings0 in
        let* (src2, bindings2) := processDeclarationId id src1 bindings0 in
        processVariableDeclaration rest src2 bindings2) /\
  (forall s e x src bindings,
      processDeclarationId (mkNode s e (Identifier x)) src bindings =
        Ok (src, bindings ∖ {[x]})) /\
  (forall s e s1 e1 s2 e2 s3 e3 x src bindings,
      x ∈ bindings ->
      processVariableDeclaration
        [mkVariableDeclarator (mkNode s e (Identifier x))
           (Some
              (mkNode s1 e1
                 (BinaryExpression (mkNode s2 e2 (Identifier x))
                    (mkNode s3 e3 NumericLiteral))))]
        src bindings =
        Ok (MagicString.update src s2 e2 (getLocalsName x),
            bindings ∖ {[x]})) /\
  compile (Scripts.parser Scripts.initializer_program) toString
    Scripts.initializer_src =
    Ok {| locals :=
            toString
              (MagicString.mk Scripts.initializer_src
                 [MagicString.Remove 11 40;
                  MagicString.Append Scripts.seal_x]);
          main :=
            toString
              (MagicString.mk Scripts.initializer_src
                 [MagicString.Remove 0 11; MagicString.Remove 40 40;
                  MagicString.Update 31 32 "(__locals__.x)";
                  MagicString.Update 11 15 Scripts.header;
                  MagicString.Remove 39 40]) |}.
Proof.
  split; [|split; [|split; [|split]]].
  - reflexivity.
  - intros. rewrite processVariableDeclaration_app.
    destruct (processVariableDeclaration before src bindings)
      as [[src0 bindings0]|]; simpl; [|reflexivity].
    unfold processVariableDeclaration, processVariableDeclarationWith.
    simpl. destruct (processExpr init src0 bindings0) as [src1|]; simpl;
      [|reflexivity].
    destruct (processDeclarationId id src1 bindings0) as [[src2 b2]|];
      reflexivity.
  - reflexivity.
  - intros * Hx.
    unfold processVariableDeclaration, processVariableDeclarationWith.
    simpl. unfold updateIfBound, has.
    rewrite bool_decide_true by assumption. reflexivity.
  - vm_compute. reflexivity.
Qed.

(** C3 (the code departs from it).  A variable declaration in the body
    of a for...of statement is never processed, because the statement
    does not process its body: whatever the body declares, the statement
    returns what it returns with an empty body.  In
    [let x = 1; app(() => { for (const y of []) { let x = x + 1; } })]
    the right-hand [x] at 53..54 is not rewritten although [x] is a
    top-level binding; with [in] for [of] it is. *)
Theorem C3_initializer_in_a_for_of_body_is_not_rewritten :
  (forall s e left_ right_ s1 e1 body src bindings,
      processStmt
        (mkNode s e
           (ForOfStatement left_ right_
              (mkNode s1 e1 (BlockStatement body))))
        src bindings =
      processStmt
        (mkNode s e
           (ForOfStatement left_ right_ (mkNode s1 e1 (BlockStatement []))))
        src bindings) /\
  compile (Scripts.parser Unreached.forofdecl_program) toString
    Unreached.forofdecl_src =
    Ok {| locals :=
            toString
              (MagicString.mk Unreached.forofdecl_src
                 [MagicString.Remove 11 64;
                  MagicString.Append Scripts.seal_x]);
          main :=
            toString
              (MagicString.mk Unreached.forofdecl_src
                 [MagicString.Remove 0 11; MagicString.Remove 64 64;
                  MagicString.Update 11 15 Scripts.header;
                  MagicString.Remove 63 64]) |} /\
  compile (Scripts.parser Unreached.forindecl_program) toString
    Unreached.forindecl_src =
    Ok {| locals :=
            toString
              (MagicString.mk Unreached.forindecl_src
                 [MagicString.Remove 11 64;
                  MagicString.Append Scripts.seal_x]);
          main :=
            toString
              (MagicString.mk Unreached.forindecl_src
                 [MagicString.Remove 0 11; MagicString.Remove 64 64;
                  MagicString.Update 53 54 "(__locals__.x)";
                  MagicString.Update 11 15 Scripts.header;
                  MagicString.Remove 63 64]) |}.
Proof.
  split; [|split].
  - intros. reflexivity.
  - vm_compute. reflexivity.
  - vm_compute. reflexivity.
Qed.

(** C4 (the code departs from it).  The catch parameter goes through
    [processLVal] on a copy of the snapshot that is then dropped, and the
    handler body is processed with the snapshot of the enclosing scope:
    a catch parameter that is in the snapshot is itself rewritten, and so
    are the references to it in the handler.  In
    [let e = 1; app(() => { try { } catch (e) { e; } })] the parameter at
    38..39 and the reference at 43..44 are rewritten. *)
Theorem C4_catch_parameter_does_not_shadow :
  (forall s e s1 e1 x block body src bindings,
      processStmt
        (mkNode s e
           (TryStatement block
              (Some
                 (mkCatchClause (Some (mkNode s1 e1 (Identifier x))) body))
              None))
        src bindings =
        let* (src1, bindings1) := processStmt block src bindings in
        processStmt body
          (updateIfBound src1 bindings1 x s1 e1 (getLocalsName x))
          bindings1) /\
  compile (Scripts.parser Scripts.catch_program) toString
    Scripts.catch_src =
    Ok {| locals :=
            toString
              (MagicString.mk Scripts.catch_src
                 [MagicString.Remove 11 50;
                  MagicString.Append Scripts.seal_e]);
          main :=
            toString
              (MagicString.mk Scripts.catch_src
                 [MagicString.Remove 0 11; MagicString.Remove 50 50;
                  MagicString.Update 38 39 "(__locals__.e)";
                  MagicString.Update 43 44 "(__locals__.e)";
                  MagicString.Update 11 15 Scripts.header;
                  MagicString.Remove 49 50]) |}.
Proof.
  split.
  - intros. simpl.
    destruct (processStmt block src bindings) as [[src1 b1]|]; simpl;
      [|reflexivity].
    destruct (processStmt body _ b1) as [[src2 b2]|]; reflexivity.
  - vm_compute. reflexivity.
Qed.

(** C5 (the code departs from it).  A for...of statement processes its
    header on the snapshot of the enclosing scope itself, and does not
    process its body: the name its header declares is gone from the
    enclosing snapshot after the loop.  In
    [let x = 1; app(() => { for (const x of []) { } x; })] the [x] after
    the loop, at 47..48, is not rewritten; with [in] for [of] it is. *)
Theorem C5_for_of_header_changes_the_enclosing_snapshot :
  (forall s e s1 e1 s2 e2 kind x right_ body src bindings,
      processStmt
        (mkNode s e
           (ForOfStatement
              (mkNode s1 e1
                 (VariableDeclaration kind
                    [mkVariableDeclarator (mkNode s2 e2 (Identifier x))
                       None]))
              right_ body))
        src bindings =
        let* src1 := processExpr right_ src bindings in
        Ok (src1, bindings ∖ {[x]})) /\
  compile (Scripts.parser Scripts.forof_program) toString
    Scripts.forof_src =
    Ok {| locals :=
            toString
              (MagicString.mk Scripts.forof_src
                 [MagicString.Remove 11 52;
                  MagicString.Append Scripts.seal_x]);
          main :=
            toString
              (MagicString.mk Scripts.forof_src
                 [MagicString.Remove 0 11; MagicString.Remove 52 52;
                  MagicString.Update 11 15 Scripts.header;
                  MagicString.Remove 51 52]) |} /\
  compile (Scripts.parser Scripts.forin_program) toString
    Scripts.forin_src =
    Ok {| locals :=
            toString
              (MagicString.mk Scripts.forin_src
                 [MagicString.Remove 11 52;
                  MagicString.Append Scripts.seal_x]);
          main :=
            toString
              (MagicString.mk Scripts.forin_src
                 [MagicString.Remove 0 11; MagicString.Remove 52 52;
                  MagicString.Update 47 48 "(__locals__.x)";
                  MagicString.Update 11 15 Scripts.header;
                  MagicString.Remove 51 52]) |}.
Proof.
  split; [|split].
  - intros. simpl.
    destruct (processExpr right_ src bindings); reflexivity.
  - vm_compute. reflexivity.
  - vm_compute. reflexivity.
Qed.


(** C7 (the code departs from it).  Only the import branch of the
    binding extractor leaves [app] out; a variable declaration of [app]
    is extracted like any other.  For
    [const app = make(); app(() => {})] the extracted bindings are the
    read-only [app]; for [import {app} from 'lib'; app(() => {})] there
    is none. *)
Theorem C7_app_declared_by_a_variable_is_extracted :
  (exists pr,
      parse (Scripts.parser Scripts.appvar_program) Scripts.appvar_src =
        Ok pr /\
      getBindings pr = Ok [mkBinding "app" true]) /\
  (exists pr,
      parse (Scripts.parser Scripts.appimport_program)
        Scripts.appimport_src =
        Ok pr /\
      getBindings pr = Ok []).
Proof.
  split; eexists; (split; [vm_compute; reflexivity|]);
    vm_compute; reflexivity.
Qed.

(** C8. [compile] fails with the locator's error exactly when no
    top-level statement is an expression statement whose expression is a
    call with an app-rooted callee; and when there is such a statement,
    the first one is selected: its call is the entry call and the other
    statements, in order, are those of the locals module.  The three
    forms [app(() => {})], [app.config({}).run(() => {})] and
    [app()(() => {})] are selected, and [let x = 1; f(x);] fails with
    the locator's error. *)
Theorem C8_entry_point_not_found_iff_no_entry_call (src : string) :
  (compile babelParse toString src = Throw EntryPointNotFound <->
   forall statement,
     statement ∈ babelParse src ->
     forall expression, ~ EntryStatement statement expression) /\
  (forall pre statement post expression,
      babelParse src = pre ++ statement :: post ->
      (forall st, st ∈ pre -> forall e, ~ EntryStatement st e) ->
      EntryStatement statement expression ->
      exists pr,
        parse babelParse src = Ok pr /\
        mainAst pr = expression /\
        localsAst pr = pre ++ post) /\
  (exists pr,
      parse (Scripts.parser Scripts.plain_program) Scripts.plain_src =
        Ok pr /\
      Scripts.plain_program =
        [mkNode 0 13 (ExpressionStatement (mainAst pr))]) /\
  (exists pr,
      parse (Scripts.parser Scripts.chained_program) Scripts.chained_src =
        Ok pr /\
      Scripts.chained_program =
        [mkNode 0 28 (ExpressionStatement (mainAst pr))]) /\
  (exists pr,
      parse (Scripts.parser Scripts.curried_program) Scripts.curried_src =
        Ok pr /\
      Scripts.curried_program =
        [mkNode 0 15 (ExpressionStatement (mainAst pr))]) /\
  compile (Scripts.parser Scripts.noentry_program) toString
    Scripts.noentry_src =
    Throw EntryPointNotFound.
Proof.
  assert (none : forall l : list Node,
             (forall st, st ∈ l -> forall e, ~ EntryStatement st e) <->
             Forall (fun st => entryCall st = None) l).
  { intros l. rewrite Forall_forall. split; intros H st Hst.
    - destruct (entryCall st) as [e|] eqn:He; [|reflexivity].
      exfalso. apply (H st Hst e). apply entryCall_Some. assumption.
    - intros e He. apply entryCall_Some in He. rewrite (H st Hst) in He.
      discriminate. }
  split; [|split; [|split; [|split; [|split]]]].
  - rewrite none. split.
    + intros Hc.
      destruct (entryCall_first (babelParse src))
        as [H | (pre & st & post & expression & Heq & H1 & H2)];
        [assumption|].
      exfalso.
      pose proof (parse_first babelParse src pre post st expression
                    Heq H1 H2) as Hp.
      pose proof (compile_thrown babelParse toString src _ Hp) as Ht.
      rewrite Hc in Ht. simpl in Ht.
      destruct Ht as [Ht | Ht]; [apply Ht; reflexivity | discriminate].
    + apply compile_no_entry.
  - intros pre statement post expression Heq Hpre Hst.
    apply none in Hpre. apply entryCall_Some in Hst.
    eexists. split; [|split].
    + apply (parse_first babelParse src pre post statement expression
               Heq Hpre Hst).
    + reflexivity.
    + reflexivity.
  - eexists. split; [vm_compute; reflexivity | reflexivity].
  - eexists. split; [vm_compute; reflexivity | reflexivity].
  - eexists. split; [vm_compute; reflexivity | reflexivity].
  - vm_compute. reflexivity.
Qed.

(** C9 (the code departs from it).  A class declaration reached by the
    rewriter throws, but a class expression is skipped without an edit
    and without a throw: [app(() => { const C = class { }; })] compiles,
    while [app(() => { class C { } })] does not. *)
Theorem C9_class_expression_is_accepted :
  (forall s e src bindings,
      processExpr (mkNode s e ClassExpression) src bindings = Ok src) /\
  (forall s e src bindings,
      processStmt (mkNode s e ClassDeclaration) src bindings =
        Throw (Error "Not implemented: ClassDeclaration")) /\
  compile (Scripts.parser Scripts.classexpr_program) toString
    Scripts.classexpr_src =
    Ok {| locals :=
            toString
              (MagicString.mk Scripts.classexpr_src
                 [MagicString.Remove 0 35;
                  MagicString.Append Scripts.seal_none]);
          main :=
            toString
              (MagicString.mk Scripts.classexpr_src
                 [MagicString.Remove 0 0; MagicString.Remove 35 35;
                  MagicString.Update 0 4 Scripts.header;
                  MagicString.Remove 34 35]) |} /\
  compile (Scripts.parser Scripts.classdecl_program) toString
    Scripts.classdecl_src =
    Throw (Error "Not implemented: ClassDeclaration").
Proof.
  split; [|split; [|split]].
  - reflexivity.
  - reflexivity.
  - vm_compute. reflexivity.
  - vm_compute. reflexivity.
Qed.

(** C10 (amended).  Let the locator have selected an entry call.  If the
    call has no argument, [compile] returns no result: it fails with the
    error of the binding extractor when that fails, else with the error
    of the rewriter when that fails, and only when both succeed with the
    [TypeError] of the unguarded read of the first argument.  If the call
    has an argument, [compile] does not fail with that [TypeError]. *)
Theorem C10_entry_call_needs_an_argument (src : string)
    (pr : ParseResult) :
  parse babelParse src = Ok pr ->
  (callArguments (mainAst pr) = [] ->
   (forall r, compile babelParse toString src <> Ok r) /\
   match getBindings pr with
   | Throw e => compile babelParse toString src = Throw e
   | Ok bindings =>
       match
         processExpr (mainAst pr) (mainSrc pr)
           (list_to_set (map name bindings))
       with
       | Throw e => compile babelParse toString src = Throw e
       | Ok _ => compile babelParse toString src = Throw TypeError
       end
   end) /\
  (callArguments (mainAst pr) <> [] ->
   compile babelParse toString src <> Throw TypeError).
Proof.
  intros Hp.
  destruct (parse_Ok_call babelParse src pr Hp) as (callee & args & Hc).
  unfold callArguments. rewrite Hc. split.
  - intros ->. unfold compile. rewrite Hp. simpl.
    destruct (getBindings pr) as [bindings|]; simpl;
      [|split; [discriminate | reflexivity]].
    destruct (processExpr _ _ _) as [mainSrc1|]; simpl;
      [|split; [discriminate | reflexivity]].
    unfold wrapMain. simpl. rewrite Hc. simpl.
    split; [discriminate | reflexivity].
  - intros Hargs Hcomp.
    assert (Ht : thrown laterError (compile babelParse toString src)).
    { unfold compile. rewrite Hp. simpl.
      pose proof (getBindings_thrown pr) as Hb.
      destruct (getBindings pr) as [bindings|]; simpl in *; [|assumption].
      pose proof (rewriter_thrown (mainAst pr) (mainSrc pr)
                    (list_to_set (map name bindings))) as (_ & He & _).
      destruct (processExpr _ _ _) as [mainSrc1|]; simpl in *;
        [|assumption].
      unfold wrapMain. simpl. rewrite Hc.
      destruct args as [|arg0 args]; [contradiction|]. exact I. }
    rewrite Hcomp in Ht. exact Ht.
Qed.
End Properties.

(** C10 at [app();]: the locator selects the call, the extractor and the
    rewriter succeed, and the read of the missing argument throws. *)
Lemma C10_entry_call_needs_an_argument_witness :
  compile (Scripts.parser Scripts.noarg_program) MagicString.original
    Scripts.noarg_src =
    Throw TypeError.
Proof.
  pose proof
    (C10_entry_call_needs_an_argument
       (Scripts.parser Scripts.noarg_program) MagicString.original
       Scripts.noarg_src
       {| localsAst := [];
          localsSrc :=
            MagicString.mk Scripts.noarg_src [MagicString.Remove 0 5];
          mainAst :=
            mkNode 0 5 (CallExpression (mkNode 0 3 (Identifier "app")) []);
          mainSrc :=
            MagicString.mk Scripts.noarg_src
              [MagicString.Remove 0 0; MagicString.Remove 5 6] |}
       eq_refl) as [H _].
  exact (proj2 (H eq_refl)).
Defined.

(** C10 as it is written fails at [app.config(() => { class C {} })();]:
    the located call has no argument, and [compile] fails before the read
    of the first argument, in the rewriter, on the class declaration
    inside the callee, with one of the errors of the pass. *)
Lemma C10_zero_argument_call_can_fail_with_an_error_of_the_pass :
  exists pr,
    parse (Scripts.parser Unreached.calleeclass_program)
      Unreached.calleeclass_src =
      Ok pr /\
    callArguments (mainAst pr) = [] /\
    compile (Scripts.parser Unreached.calleeclass_program)
      MagicString.original Unreached.calleeclass_src =
      Throw (Error "Not implemented: ClassDeclaration") /\
    rewriterError (Error "Not implemented: ClassDeclaration").
Proof.
  eexists. split; [reflexivity|]. split; [reflexivity|].
  split; vm_compute; reflexivity.
Qed.

(** ** The rewriter only adds rewrites of names of the snapshot *)

Lemma extends_refl (bindings : Bindings) (src : MagicString) :
  extends bindings src src.
Proof.
  split; [reflexivity|]. exists []. rewrite app_nil_r. split; constructor.
Qed.

Lemma extends_updateIfBound (bindings0 bindings : Bindings)
    (src0 src : MagicString) (x : string) (s e : nat) (content : string) :
  extends bindings0 src0 src ->
  bindings ⊆ bindings0 ->
  content = getLocalsName x \/ content = x +:+ ":" +:+ getLocalsName x ->
  extends bindings0 src0 (updateIfBound src bindings x s e content).
Proof.
  intros (Ho & new & Hn & Hall) Hsub Hc. unfold updateIfBound, has.
  case_bool_decide as Hx; [|split; eauto].
  split; [exact Ho|]. exists (new ++ [MagicString.Update s e content]).
  simpl. rewrite Hn, app_assoc. split; [reflexivity|].
  apply Forall_app. split; [assumption|]. constructor; [|constructor].
  exists s, e, x. split; [apply Hsub, Hx|].
  destruct Hc as [-> | ->]; auto.
Qed.

Lemma okR_bind {A B : Type} (p : A -> Prop) (q : B -> Prop) (r : Result A)
    (k : A -> Result B) :
  okR p r -> (forall a, p a -> okR q (k a)) -> okR q (bind r k).
Proof. destruct r; simpl; auto. Qed.

Lemma okR_forEach {A S : Type} (p : S -> Prop) (f : A -> S -> Result S)
    (l : list A) :
  Forall (fun x => forall s, p s -> okR p (f x s)) l ->
  forall s, p s -> okR p (forEach f l s).
Proof.
  induction 1 as [|x l Hx _ IH]; intros s Hs; simpl; [exact Hs|].
  eapply okR_bind; [apply Hx, Hs | exact IH].
Qed.

Lemma postS_intro (bindings0 bindings : Bindings) (src0 src : MagicString) :
  extends bindings0 src0 src ->
  bindings ⊆ bindings0 ->
  postS bindings0 src0 (src, bindings).
Proof. split; assumption. Qed.

Lemma subseteq_delete (bindings0 bindings : Bindings) (x : string) :
  bindings ⊆ bindings0 -> bindings ∖ {[x]} ⊆ bindings0.
Proof.
  intros H y [Hy _]%elem_of_difference. apply H, Hy.
Qed.

Ltac ext_children :=
  match goal with
  | H : rewriterExtends ?n |- okR (postS ?B ?S) (processStmt ?n ?s ?b) =>
      refine (proj1 (H B S s b _ _)); assumption
  | H : rewriterExtends ?n |- okR (postE ?B ?S) (processExpr ?n ?s ?b) =>
      refine (proj1 (proj2 (H B S s b _ _))); assumption
  | H : rewriterExtends ?n |- okR (postE ?B ?S) (processLVal ?n ?s ?b) =>
      refine (proj1 (proj2 (proj2 (H B S s b _ _)))); assumption
  | H : rewriterExtends ?n
    |- okR (postS ?B ?S) (processDeclarationId ?n ?s ?b) =>
      refine (proj2 (proj2 (proj2 (H B S s b _ _)))); assumption
  end.

(** The state a continuation receives: a buffer, or a buffer and a
    snapshot. *)
Ltac ext_intro :=
  let a := fresh "a" in
  let Ha := fresh "Ha" in
  intros a Ha;
  lazymatch type of Ha with
  | postS _ _ _ =>
      destruct a as [? ?]; destruct Ha as [? ?]; cbn [fst snd] in *
  | postE _ _ _ => unfold postE in Ha
  end;
  lazy beta iota.

Ltac ext_base k :=
  lazymatch goal with
  | |- okR (postE ?B ?S) _ => k B S
  | |- okR (postS ?B ?S) _ => k B S
  end.

Ltac ext_bind :=
  lazymatch goal with
  | |- okR _ (bind ?r _) =>
      let T := type of r in
      lazymatch eval cbv beta in T with
      | Result (_ * _) =>
          ext_base ltac:(fun B S => apply (okR_bind (postS B S)))
      | _ => ext_base ltac:(fun B S => apply (okR_bind (postE B S)))
      end; [|ext_intro]
  end.

Ltac ext_loop :=
  lazymatch goal with
  | |- okR ?p (forEach _ _ _) =>
      apply (okR_forEach p);
      [ weaken_children; intros; split_hyps;
        repeat match goal with
               | H : postS _ _ ?a |- _ =>
                   destruct a as [? ?]; destruct H as [? ?];
                   cbn [fst snd] in *
               | H : postE _ _ _ |- _ => unfold postE in H
               end;
        lazy beta iota
      | first [ apply postS_intro; assumption | assumption ] ]
  end.

Lemma processVariableDeclaration_extends
    (declarations : list (VariableDeclarator Node)) :
  Forall (fun d => rewriterExtends (d_id d) /\
                   from_option rewriterExtends True (d_init d))
    declarations ->
  forall bindings0 src0 src bindings,
    extends bindings0 src0 src ->
    bindings ⊆ bindings0 ->
    okR (postS bindings0 src0)
      (processVariableDeclarationWith processExpr processDeclarationId
         declarations src bindings).
Proof.
  intros H B S src bindings Hext Hsub.
  unfold processVariableDeclarationWith.
  apply (okR_forEach (postS B S)); [|split; assumption].
  eapply Forall_impl; [exact H|].
  intros [di dn] [Hi Hn] [s b] [Hs Hb]; simpl in *.
  apply (okR_bind (postE B S)).
  - destruct dn as [dn|]; simpl in *; [|exact Hs].
    exact (proj1 (proj2 (Hn B S s b Hs Hb))).
  - intros s1 Hs1. exact (proj2 (proj2 (proj2 (Hi B S s1 b Hs1 Hb)))).
Qed.

Ltac ext_core :=
  match goal with
  | |- True => exact I
  | |- okR _ (Throw _) => exact I
  | |- okR (postE _ _) (Ok (updateIfBound _ _ _ _ _ _)) =>
      apply extends_updateIfBound; [assumption | assumption | tauto]
  | |- okR (postE _ _) (Ok _) => assumption
  | |- okR (postS _ _) (Ok (_, _ ∖ _)) =>
      apply postS_intro; [assumption | apply subseteq_delete; assumption]
  | |- okR (postS _ _) (Ok (_, _)) =>
      apply postS_intro; first [assumption | reflexivity]
  | |- okR _ (processStmt _ _ _) => ext_children
  | |- okR _ (processExpr _ _ _) => ext_children
  | |- okR _ (processLVal _ _ _) => ext_children
  | |- okR _ (processDeclarationId _ _ _) => ext_children
  | |- okR _ (bind _ _) => ext_bind
  | |- okR _ (processVariableDeclarationWith _ _ _ _ _) =>
      apply processVariableDeclaration_extends;
      [ first
          [ eassumption
          | weaken_children;
            let d := fresh in
            intros d [[? ?] ?]; split; [assumption|];
            destruct (d_init d); cbn [from_option] in *; tauto ]
      | assumption | assumption ]
  | |- okR _ (forEach _ _ _) => ext_loop
  | |- okR _ (processExprOrPatternLikeWith _ _ _ _ _) =>
      unfold processExprOrPatternLikeWith
  | |- okR _ (processShorthand _ _ _) => unfold processShorthand
  | |- okR _ (match type ?c with _ => _ end) =>
      is_var c; destruct c as [? ? []]; dispatch
  | |- okR _ (match ?p with (_, _) => _ end) =>
      is_var p; destruct p; dispatch
  | |- okR _ (match ?o with Some _ => _ | None => _ end) =>
      is_var o; destruct o; dispatch
  | |- okR _ (match d_init ?d with _ => _ end) =>
      is_var d; destruct d as [? []]; dispatch
  | |- okR _ (match c_test ?d with _ => _ end) =>
      is_var d; destruct d as [[] ?]; dispatch
  | |- okR _ (match h_param ?d with _ => _ end) =>
      is_var d; destruct d as [[] ?]; dispatch
  | |- okR _ (if ?c then _ else _) => destruct c
  | H : True |- _ => clear H
  end.

Lemma processArgument_extends (arg : Node) :
  rewriterExtends arg ->
  allChildren rewriterExtends (type arg) ->
  forall bindings0 src0 src bindings,
    extends bindings0 src0 src ->
    bindings ⊆ bindings0 ->
    okR (postE bindings0 src0)
      (processArgumentWith processExpr arg src bindings).
Proof.
  intros H Hc B S src bindings Hext Hsub.
  unfold processArgumentWith.
  destruct (isJSXNamespacedName arg); [exact Hext|].
  repeat ext_core.
Qed.

Ltac ext_step :=
  lazymatch goal with
  | |- okR _ (processArgumentWith _ _ _ _) =>
      apply processArgument_extends; assumption
  | _ => ext_core
  end.

Lemma rewriter_extends (ast : Node) : rewriterExtends ast.
Proof.
  induction ast as [s e t IH] using Node_children2_ind.
  intros B S src bindings Hext Hsub.
  destruct t; simpl in IH; split_hyps;
    (split; [|split; [|split]]);
    cbn [processStmt processExpr processLVal processDeclarationId type
         start end_];
    repeat ext_step.
Qed.

Lemma extends_empty (src src' : MagicString) :
  extends ∅ src src' -> src' = src.
Proof.
  destruct src as [o l], src' as [o' l']. simpl.
  intros (Ho & new & Hn & Hall). simpl in *. subst o'.
  destruct new as [|edit new].
  - rewrite app_nil_r in Hn. subst l'. reflexivity.
  - exfalso. inversion Hall as [|? ? (s & e & x & Hx & _) _]; subst.
    exact (not_elem_of_empty x Hx).
Qed.

Lemma processExpr_Ok_extends (ast : Node) (src src' : MagicString)
    (bindings : Bindings) :
  processExpr ast src bindings = Ok src' -> extends bindings src src'.
Proof.
  intros H.
  destruct (rewriter_extends ast bindings src src bindings
              (extends_refl bindings src) (reflexivity bindings))
    as (_ & He & _).
  rewrite H in He. exact He.
Qed.

(** X1. Whatever the rewriter returns, the buffer is the one it was given
    with more edits scheduled after those it held: the original text is the
    same, no edit is dropped or reordered, and each added edit replaces a
    range by the locals access of a name of the snapshot the rewriter was
    given (for a shorthand entry, by the key, a colon and that access). *)
Theorem X1_rewriter_adds_only_rewrites_of_snapshot_names
    (ast : Node) (src : MagicString) (bindings : Bindings) :
  (forall src',
      processExpr ast src bindings = Ok src' ->
      extends bindings src src') /\
  (forall src',
      processLVal ast src bindings = Ok src' ->
      extends bindings src src') /\
  (forall src' bindings',
      processStmt ast src bindings = Ok (src', bindings') ->
      extends bindings src src') /\
  (forall src' bindings',
      processDeclarationId ast src bindings = Ok (src', bindings') ->
      extends bindings src src').
Proof.
  destruct (rewriter_extends ast bindings src src bindings
              (extends_refl bindings src) (reflexivity bindings))
    as (Hs & He & Hl & Hd).
  split; [|split; [|split]].
  - intros src' H. rewrite H in He. exact He.
  - intros src' H. rewrite H in Hl. exact Hl.
  - intros src' b' H. rewrite H in Hs. exact (proj1 Hs).
  - intros src' b' H. rewrite H in Hd. exact (proj1 Hd).
Qed.

(** X2. The snapshot only shrinks: the set a statement or a declaration
    target leaves is a subset of the set it was given, so a name that is
    not a top-level binding at the root never becomes rewritable. *)
Theorem X2_snapshot_only_shrinks
    (ast : Node) (src : MagicString) (bindings : Bindings) :
  (forall src' bindings',
      processStmt ast src bindings = Ok (src', bindings') ->
      bindings' ⊆ bindings) /\
  (forall src' bindings',
      processDeclarationId ast src bindings = Ok (src', bindings') ->
      bindings' ⊆ bindings).
Proof.
  destruct (rewriter_extends ast bindings src src bindings
              (extends_refl bindings src) (reflexivity bindings))
    as (Hs & _ & _ & Hd).
  split.
  - intros src' b' H. rewrite H in Hs. exact (proj2 Hs).
  - intros src' b' H. rewrite H in Hd. exact (proj2 Hd).
Qed.

(** X3. With the empty snapshot the rewriter schedules no edit at all:
    whatever it returns, the buffer is the one it was given, and the
    snapshot is still empty. *)
Theorem X3_empty_snapshot_leaves_the_buffer_alone
    (ast : Node) (src : MagicString) :
  (forall src', processExpr ast src ∅ = Ok src' -> src' = src) /\
  (forall src', processLVal ast src ∅ = Ok src' -> src' = src) /\
  (forall src' bindings',
      processStmt ast src ∅ = Ok (src', bindings') ->
      src' = src /\ bindings' = ∅) /\
  (forall src' bindings',
      processDeclarationId ast src ∅ = Ok (src', bindings') ->
      src' = src /\ bindings' = ∅).
Proof.
  destruct (rewriter_extends ast ∅ src src ∅
              (extends_refl ∅ src) (reflexivity ∅))
    as (Hs & He & Hl & Hd).
  split; [|split; [|split]].
  - intros src' H. rewrite H in He. apply extends_empty, He.
  - intros src' H. rewrite H in Hl. apply extends_empty, Hl.
  - intros src' b' H. rewrite H in Hs. destruct Hs as [Hs Hb]. split.
    + apply extends_empty, Hs.
    + apply leibniz_equiv. apply equiv_empty. exact Hb.
  - intros src' b' H. rewrite H in Hd. destruct Hd as [Hd Hb]. split.
    + apply extends_empty, Hd.
    + apply leibniz_equiv. apply equiv_empty. exact Hb.
Qed.

(** ** The shape of what the pass returns *)

Section Shape.
Variable babelParse : string -> list Node.
Variable toString : MagicString -> string.

Lemma parse_Ok_inv (src : string) (pr : ParseResult) :
  parse babelParse src = Ok pr ->
  exists pre statement post,
    babelParse src = pre ++ statement :: post /\
    Forall (fun st => entryCall st = None) pre /\
    entryCall statement = Some (mainAst pr) /\
    pr =
      {| localsAst := pre ++ post;
         localsSrc :=
           MagicString.mk src
             [MagicString.Remove (start (mainAst pr)) (end_ (mainAst pr))];
         mainAst := mainAst pr;
         mainSrc :=
           MagicString.mk src
             [MagicString.Remove 0 (start (mainAst pr));
              MagicString.Remove (end_ (mainAst pr)) (String.length src)] |}.
Proof.
  destruct (entryCall_first (babelParse src))
    as [H | (pre & st & post & expression & Heq & H1 & H2)].
  - unfold parse. cbv zeta. rewrite parseFrom_none by assumption.
    discriminate.
  - rewrite (parse_first babelParse src pre post st expression Heq H1 H2).
    intros [= <-]. exists pre, st, post. simpl. auto.
Qed.

(** X7. When the locator succeeds, the statements are some statements that
    are no entry statement, then the selected statement, then the rest;
    the entry call is the expression of the selected statement; the
    statements of the locals module are the others in order, a later entry
    statement among them; the locals buffer holds the removal of the call's
    span and the main buffer the removal of what is before and after it. *)
Theorem X7_parse_selects_the_first_entry_statement (src : string)
    (pr : ParseResult) :
  parse babelParse src = Ok pr ->
  exists pre statement post,
    babelParse src = pre ++ statement :: post /\
    (forall st, st ∈ pre -> forall e, ~ EntryStatement st e) /\
    EntryStatement statement (mainAst pr) /\
    localsAst pr = pre ++ post /\
    localsSrc pr =
      MagicString.mk src
        [MagicString.Remove (start (mainAst pr)) (end_ (mainAst pr))] /\
    mainSrc pr =
      MagicString.mk src
        [MagicString.Remove 0 (start (mainAst pr));
         MagicString.Remove (end_ (mainAst pr)) (String.length src)].
Proof.
  intros Hp.
  destruct (parse_Ok_inv src pr Hp) as (pre & st & post & Heq & H1 & H2 & Hpr).
  exists pre, st, post. split; [exact Heq|]. split; [|split].
  - intros st' Hst' e He. apply entryCall_Some in He.
    rewrite Forall_forall in H1. rewrite (H1 st' Hst') in He. discriminate.
  - apply entryCall_Some. exact H2.
  - rewrite Hpr. simpl. auto.
Qed.

Lemma compile_Ok_shape (src : string) (r : CompileResult) :
  compile babelParse toString src = Ok r ->
  exists pr bindings argument0 others rewrites text,
    parse babelParse src = Ok pr /\
    getBindings pr = Ok bindings /\
    callArguments (mainAst pr) = argument0 :: others /\
    Forall (rewriteOf (list_to_set (map name bindings))) rewrites /\
    locals r =
      toString
        (MagicString.mk src
           [MagicString.Remove (start (mainAst pr)) (end_ (mainAst pr));
            MagicString.Append text]) /\
    main r =
      toString
        (MagicString.mk src
           ([MagicString.Remove 0 (start (mainAst pr));
             MagicString.Remove (end_ (mainAst pr)) (String.length src)] ++
            rewrites ++
            [MagicString.Update (start (mainAst pr)) (start argument0)
               "export default (__locals__) =>";
             MagicString.Remove (end_ argument0) (end_ (mainAst pr))])).
Proof.
  unfold compile.
  destruct (parse babelParse src) as [pr|] eqn:Hp; simpl; [|discriminate].
  destruct (parse_Ok_inv src pr Hp) as (pre & st & post & _ & _ & _ & Hpr).
  destruct (getBindings pr) as [bindings|] eqn:Hb; simpl; [|discriminate].
  destruct (processExpr (mainAst pr) (mainSrc pr)
              (list_to_set (map name bindings))) as [mainSrc1|] eqn:He;
    simpl; [|discriminate].
  apply processExpr_Ok_extends in He.
  destruct He as (Ho & rewrites & Hn & Hall).
  unfold wrapMain, callArguments. simpl.
  destruct (type (mainAst pr)) eqn:Ht; try discriminate.
  destruct arguments as [|argument0 others]; simpl; [discriminate|].
  intros [= <-]. simpl.
  exists pr, bindings, argument0, others, rewrites.
  pose proof (f_equal mainSrc Hpr) as HmS. simpl in HmS.
  pose proof (f_equal localsSrc Hpr) as HlS. simpl in HlS.
  rewrite HmS in Ho, Hn. simpl in Ho, Hn.
  eexists. split; [reflexivity|]. split; [exact Hb|].
  split; [rewrite Ht; reflexivity|]. split; [exact Hall|]. split.
  - unfold appendExport, MagicString.append. rewrite HlS. simpl.
    reflexivity.
  - unfold MagicString.remove, MagicString.update. simpl.
    rewrite Ho, Hn. rewrite <- !app_assoc. reflexivity.
Qed.

(** X4. When [compile] returns, the locals text is the rendering of the
    source with two edits, the removal of the entry call and one appended
    text; the main text is the rendering of the source with the removal of
    what is before and after the entry call, then rewrites that each
    replace a range by the locals access of an extracted binding name, then
    the header over the span from the call's start to its first argument
    and the removal from the end of that argument to the end of the
    call. *)
Theorem X4_compile_output_shape (src : string) (r : CompileResult) :
  compile babelParse toString src = Ok r ->
  exists pr bindings argument0 others rewrites text,
    parse babelParse src = Ok pr /\
    getBindings pr = Ok bindings /\
    callArguments (mainAst pr) = argument0 :: others /\
    Forall (rewriteOf (list_to_set (map name bindings))) rewrites /\
    locals r =
      toString
        (MagicString.mk src
           [MagicString.Remove (start (mainAst pr)) (end_ (mainAst pr));
            MagicString.Append text]) /\
    main r =
      toString
        (MagicString.mk src
           ([MagicString.Remove 0 (start (mainAst pr));
             MagicString.Remove (end_ (mainAst pr)) (String.length src)] ++
            rewrites ++
            [MagicString.Update (start (mainAst pr)) (start argument0)
               "export default (__locals__) =>";
             MagicString.Remove (end_ argument0) (end_ (mainAst pr))])).
Proof. apply compile_Ok_shape. Qed.

(** X5. A script with no extracted binding: when [compile] returns, the
    main text is the rendering of the source with the four edits of the
    locator and of the main module synthesizer and nothing else, so the
    first argument is rendered as it is written. *)
Theorem X5_no_binding_no_rewrite (src : string) (pr : ParseResult)
    (r : CompileResult) :
  parse babelParse src = Ok pr ->
  getBindings pr = Ok [] ->
  compile babelParse toString src = Ok r ->
  exists argument0 others,
    callArguments (mainAst pr) = argument0 :: others /\
    main r =
      toString
        (MagicString.mk src
           [MagicString.Remove 0 (start (mainAst pr));
            MagicString.Remove (end_ (mainAst pr)) (String.length src);
            MagicString.Update (start (mainAst pr)) (start argument0)
              "export default (__locals__) =>";
            MagicString.Remove (end_ argument0) (end_ (mainAst pr))]).
Proof.
  intros Hp Hb Hc.
  destruct (compile_Ok_shape src r Hc)
    as (pr' & bindings & argument0 & others & rewrites & text & Hp' & Hb' &
        Ha & Hall & _ & Hm).
  rewrite Hp in Hp'. injection Hp' as <-.
  rewrite Hb in Hb'. injection Hb' as <-.
  exists argument0, others. split; [exact Ha|].
  destruct rewrites as [|edit rewrites]; [exact Hm|].
  exfalso. inversion Hall as [|? ? (s & e & x & Hx & _) _]. subst.
  simpl in Hx. exact (not_elem_of_empty x Hx).
Qed.
End Shape.

(** X7 at [app(() => {}); app(() => {})]: the first call is selected and
    the second statement stays among the statements of the locals module. *)
Lemma X7_parse_selects_the_first_entry_statement_witness :
  exists pre statement post,
    MoreScripts.twice_program = pre ++ statement :: post /\
    (forall st, st ∈ pre -> forall e, ~ EntryStatement st e) /\
    EntryStatement statement
      (mkNode 0 13
         (CallExpression (mkNode 0 3 (Identifier "app"))
            [mkNode 4 12
               (ArrowFunctionExpression [] (mkNode 10 12 (BlockStatement [])))])) /\
    [mkNode 15 28
       (ExpressionStatement
          (mkNode 15 28
             (CallExpression (mkNode 15 18 (Identifier "app"))
                [mkNode 19 27
                   (ArrowFunctionExpression []
                      (mkNode 25 27 (BlockStatement [])))])))] =
      pre ++ post.
Proof.
  destruct
    (X7_parse_selects_the_first_entry_statement
       (Scripts.parser MoreScripts.twice_program) MoreScripts.twice_src
       {| localsAst :=
            [mkNode 15 28
               (ExpressionStatement
                  (mkNode 15 28
                     (CallExpression (mkNode 15 18 (Identifier "app"))
                        [mkNode 19 27
                           (ArrowFunctionExpression []
                              (mkNode 25 27 (BlockStatement [])))])))];
          localsSrc :=
            MagicString.mk MoreScripts.twice_src [MagicString.Remove 0 13];
          mainAst :=
            mkNode 0 13
              (CallExpression (mkNode 0 3 (Identifier "app"))
                 [mkNode 4 12
                    (ArrowFunctionExpression []
                       (mkNode 10 12 (BlockStatement [])))]);
          mainSrc :=
            MagicString.mk MoreScripts.twice_src
              [MagicString.Remove 0 0; MagicString.Remove 13 28] |}
       eq_refl)
    as (pre & statement & post & H1 & H2 & H3 & H4 & _).
  exists pre, statement, post. auto.
Defined.

(** X4 at [let x = 1; app(() => { { let x = 2; x; } return x; })], with
    the original text for rendering. *)
Lemma X4_compile_output_shape_witness :
  exists pr bindings argument0 others rewrites text,
    parse (Scripts.parser Scripts.outside_program) Scripts.outside_src =
      Ok pr /\
    getBindings pr = Ok bindings /\
    callArguments (mainAst pr) = argument0 :: others /\
    Forall (rewriteOf (list_to_set (map name bindings))) rewrites /\
    Scripts.outside_src =
      MagicString.original
        (MagicString.mk Scripts.outside_src
           [MagicString.Remove (start (mainAst pr)) (end_ (mainAst pr));
            MagicString.Append text]) /\
    Scripts.outside_src =
      MagicString.original
        (MagicString.mk Scripts.outside_src
           ([MagicString.Remove 0 (start (mainAst pr));
             MagicString.Remove (end_ (mainAst pr))
               (String.length Scripts.outside_src)] ++
            rewrites ++
            [MagicString.Update (start (mainAst pr)) (start argument0)
               "export default (__locals__) =>";
             MagicString.Remove (end_ argument0) (end_ (mainAst pr))])).
Proof.
  exact
    (X4_compile_output_shape (Scripts.parser Scripts.outside_program)
       MagicString.original Scripts.outside_src
       (mkCompileResult Scripts.outside_src Scripts.outside_src) eq_refl).
Defined.

(** X5 at [app(() => {})]. *)
Lemma X5_no_binding_no_rewrite_witness :
  exists argument0 others,
    [mkNode 4 12
       (ArrowFunctionExpression [] (mkNode 10 12 (BlockStatement [])))] =
      argument0 :: others /\
    Scripts.plain_src =
      MagicString.original
        (MagicString.mk Scripts.plain_src
           [MagicString.Remove 0 0;
            MagicString.Remove 13 (String.length Scripts.plain_src);
            MagicString.Update 0 (start argument0)
              "export default (__locals__) =>";
            MagicString.Remove (end_ argument0) 13]).
Proof.
  exact
    (X5_no_binding_no_rewrite (Scripts.parser Scripts.plain_program)
       MagicString.original Scripts.plain_src
       {| localsAst := [];
          localsSrc :=
            MagicString.mk Scripts.plain_src [MagicString.Remove 0 13];
          mainAst :=
            mkNode 0 13
              (CallExpression (mkNode 0 3 (Identifier "app"))
                 [mkNode 4 12
                    (ArrowFunctionExpression []
                       (mkNode 10 12 (BlockStatement [])))]);
          mainSrc :=
            MagicString.mk Scripts.plain_src
              [MagicString.Remove 0 0; MagicString.Remove 13 13] |}
       (mkCompileResult Scripts.plain_src Scripts.plain_src)
       eq_refl eq_refl eq_refl).
Defined.

(** ** Which statements keep the snapshot *)

Lemma okR_True {A : Type} (r : Result A) : okR (fun _ => True) r.
Proof. destruct r; exact I. Qed.

Ltac frame_step :=
  lazymatch goal with
  | |- okR _ (Ok _) => reflexivity
  | |- okR _ (Throw _) => exact I
  | |- okR _ (bind _ _) =>
      apply (okR_bind (fun _ => True)); [apply okR_True|];
      let a := fresh "a" in
      intros a _; try destruct a as [? ?]; lazy beta iota
  | |- okR _ (match ?o with Some _ => _ | None => _ end) => destruct o
  end.

(** X6. A statement of any kind other than a variable declaration, a
    do...while, a labeled statement, a try and a for...of returns the
    snapshot it was given: what it declares inside, its loop header or its
    parameters never reach the enclosing scope. *)
Theorem X6_scoped_statements_keep_the_snapshot (ast : Node)
    (src src' : MagicString) (bindings bindings' : Bindings) :
  processStmt ast src bindings = Ok (src', bindings') ->
  sharesItsSnapshot ast = false ->
  bindings' = bindings.
Proof.
  intros H Hk.
  enough (Hf : okR (fun r => r.2 = bindings) (processStmt ast src bindings))
    by (rewrite H in Hf; exact Hf).
  clear H. destruct ast as [s e t].
  destruct t; try discriminate Hk;
    cbn [processStmt type start end_]; repeat frame_step.
Qed.

(** X6 at a block that declares [x], processed with [x] in the snapshot. *)
Lemma X6_scoped_statements_keep_the_snapshot_witness :
  ({["x"]} : Bindings) = {["x"]}.
Proof.
  exact
    (X6_scoped_statements_keep_the_snapshot
       (mkNode 0 12
          (BlockStatement
             [mkNode 2 10
                (VariableDeclaration "let"
                   [mkVariableDeclarator (mkNode 6 7 (Identifier "x"))
                      None])]))
       (MagicString.new "{ let x; }") (MagicString.new "{ let x; }")
       {["x"]} {["x"]} eq_refl eq_refl).
Defined.

(** ** When the binding extractor fails *)

Lemma forEach_pushes_Ok {A : Type}
    (f : A -> list Binding -> Result (list Binding)) (l : list A)
    (bindings : list Binding) :
  pushes f ->
  (exists r, forEach f l bindings = Ok r) <->
  Forall (fun x => exists new, f x [] = Ok new) l.
Proof.
  intros Hf. revert bindings.
  induction l as [|x l IH]; intros bindings; simpl.
  - split; [constructor | eauto].
  - rewrite (Hf x bindings). split.
    + intros [r Hr]. destruct (f x []) as [new|] eqn:Hx; simpl in Hr;
        [|discriminate].
      constructor; [eauto|]. apply (IH (bindings ++ new)). eauto.
    + intros Hall. inversion Hall as [|? ? [new Hx] Hl]. subst.
      rewrite Hx. simpl. apply IH. exact Hl.
Qed.

Lemma getPropertyBindings_Ok (ro : bool) (property : Node) :
  (exists new, getPropertyBindings ro property [] = Ok new) <->
  supportedProperty property = true.
Proof.
  unfold getPropertyBindings, supportedProperty, isIdentifier.
  destruct (type property);
    try (split; [reflexivity | eauto]).
  - destruct (type argument);
      try (split; [intros [? ?]; discriminate | discriminate]).
    split; [reflexivity | eauto].
  - destruct (type key);
      try (split; [intros [? ?]; discriminate | discriminate]).
    split; [reflexivity | eauto].
Qed.

Lemma getDeclarationBindings_Ok (localsSrc : MagicString) (ro : bool)
    (declaration : VariableDeclarator Node) :
  (exists new, getDeclarationBindings localsSrc ro declaration [] = Ok new) <->
  supportedTarget (d_id declaration) = true.
Proof.
  destruct declaration as [[s e t] init].
  unfold getDeclarationBindings, supportedTarget. simpl.
  destruct t;
    try (split; [reflexivity | eauto]);
    try (split; [intros [? ?]; discriminate | discriminate]).
  rewrite (forEach_pushes_Ok _ _ _ (getPropertyBindings_pushes ro)).
  rewrite forallb_forall, Forall_forall.
  split; intros H p Hp.
  - apply (proj1 (getPropertyBindings_Ok ro p)).
    apply H, list_elem_of_In, Hp.
  - apply (proj2 (getPropertyBindings_Ok ro p)).
    apply H, list_elem_of_In, Hp.
Qed.

Lemma getStatementBindings_Ok (localsSrc : MagicString) (statement : Node) :
  (exists new, getStatementBindings localsSrc statement [] = Ok new) <->
  supportedStatement statement = true.
Proof.
  unfold getStatementBindings, supportedStatement.
  destruct (type statement); try (split; [reflexivity | eauto]).
  - rewrite (forEach_pushes_Ok _ _ _
               (getDeclarationBindings_pushes localsSrc _)).
    rewrite forallb_forall, Forall_forall.
    split; intros H d Hd.
    + apply (proj1 (getDeclarationBindings_Ok localsSrc
                      (bool_decide (kind = "const")) d)).
      apply H, list_elem_of_In, Hd.
    + apply (proj2 (getDeclarationBindings_Ok localsSrc
                      (bool_decide (kind = "const")) d)).
      apply H, list_elem_of_In, Hd.
  - intros _. case_bool_decide; [eexists; reflexivity|].
    rewrite getImportBindings. eexists. reflexivity.
Qed.

(** X8. The binding extractor returns a list exactly when every
    declarator of every top-level variable declaration has a supported
    target: not a rest element, an assignment pattern, a parameter
    property or a type wrapper, and, for an object pattern, only
    properties with an identifier key and rest elements with an identifier
    argument.  Imports and the other statement kinds never make it fail. *)
Theorem X8_getBindings_succeeds_iff_targets_supported (pr : ParseResult) :
  (exists bindings, getBindings pr = Ok bindings) <->
  forallb supportedStatement (localsAst pr) = true.
Proof.
  unfold getBindings.
  rewrite (forEach_pushes_Ok _ _ _
             (getStatementBindings_pushes (localsSrc pr))).
  rewrite forallb_forall, Forall_forall.
  split; intros H st Hst.
  - apply (proj1 (getStatementBindings_Ok (localsSrc pr) st)).
    apply H, list_elem_of_In, Hst.
  - apply (proj2 (getStatementBindings_Ok (localsSrc pr) st)).
    apply H, list_elem_of_In, Hst.
Qed.

(** X9. An object pattern at top level contributes one binding per entry,
    in order: for a property the name of its key, whatever the value (a
    rename or a nested pattern is not looked at), for a rest element the
    name of its argument.  An array pattern contributes nothing.  So
    [const {a: b, c, ...d} = o; const [e] = o;] gives [a], [c] and [d],
    and neither [b] nor [e]. *)
Theorem X9_object_pattern_bindings_are_the_keys :
  (forall localsSrc ro s e entries init bindings,
      getDeclarationBindings localsSrc ro
        (mkVariableDeclarator
           (mkNode s e (ObjectPattern (map entryNode entries))) init)
        bindings =
        Ok (bindings ++
            map (fun entry => mkBinding (entryName entry) ro) entries)) /\
  (forall localsSrc ro s e elements init bindings,
      getDeclarationBindings localsSrc ro
        (mkVariableDeclarator (mkNode s e (ArrayPattern elements)) init)
        bindings =
        Ok bindings) /\
  (exists pr,
      parse (Scripts.parser MoreScripts.patterns_program)
        MoreScripts.patterns_src =
        Ok pr /\
      getBindings pr =
        Ok [mkBinding "a" true; mkBinding "c" true; mkBinding "d" true]).
Proof.
  split; [|split].
  - intros. unfold getDeclarationBindings. simpl. revert bindings.
    induction entries as [|entry entries IH]; intros bindings; simpl.
    + rewrite app_nil_r. reflexivity.
    + destruct entry; simpl; rewrite IH; unfold push;
        rewrite <- app_assoc; reflexivity.
  - reflexivity.
  - eexists. split; vm_compute; reflexivity.
Qed.

(** ** The export of the locals module *)

Lemma append_assoc (a b c : string) : (a +:+ b) +:+ c = a +:+ b +:+ c.
Proof.
  induction a as [|ch a IH]; [reflexivity|].
  change (String ch ((a +:+ b) +:+ c) = String ch (a +:+ b +:+ c)).
  f_equal. exact IH.
Qed.

(** X10. The locals buffer gets one more edit, the append of the export
    statement, whose object literal holds one entry per binding in the
    order of the list, repeated names repeated: the name for a read-only
    binding, a getter and a setter for a mutable one. *)
Theorem X10_export_lists_every_binding_in_order (pr : ParseResult)
    (bindings : list Binding) :
  appendExport pr bindings =
    MagicString.mk (MagicString.original (localsSrc pr))
      (MagicString.edits (localsSrc pr) ++
       [MagicString.Append
          ("export default Object.seal({" +:+
           foldr (fun b rest => exportEntry b +:+ rest) "})" bindings)]).
Proof.
  unfold appendExport, MagicString.append. do 3 f_equal.
  generalize "export default Object.seal({".
  induction bindings as [|b bindings IH]; intros str; simpl.
  - reflexivity.
  - rewrite IH. unfold exportEntry.
    destruct (readonly b); rewrite ?append_assoc; reflexivity.
Qed.

(** ** The edits the rewriter schedules do not depend on the buffer *)

Lemma sameDelta_updateIfBound (base1 base2 src1 src2 : MagicString)
    (bindings : Bindings) (x : string) (s e : nat) (content : string) :
  sameDelta base1 base2 src1 src2 ->
  sameDelta base1 base2 (updateIfBound src1 bindings x s e content)
    (updateIfBound src2 bindings x s e content).
Proof.
  intros (new & -> & ->). unfold updateIfBound.
  destruct (has bindings x); [|exists new; auto].
  exists (new ++ [MagicString.Update s e content]).
  unfold MagicString.update, addEdits. simpl.
  rewrite !app_assoc. auto.
Qed.

Lemma agree_bind {A B : Type} (p : A -> A -> Prop) (q : B -> B -> Prop)
    (r1 r2 : Result A) (k1 k2 : A -> Result B) :
  agree p r1 r2 ->
  (forall a1 a2, p a1 a2 -> agree q (k1 a1) (k2 a2)) ->
  agree q (bind r1 k1) (bind r2 k2).
Proof. destruct r1, r2; simpl; auto; contradiction. Qed.

Lemma agree_forEach {A S : Type} (p : S -> S -> Prop)
    (f1 f2 : A -> S -> Result S) (l : list A) :
  Forall (fun x => forall s1 s2, p s1 s2 -> agree p (f1 x s1) (f2 x s2)) l ->
  forall s1 s2, p s1 s2 -> agree p (forEach f1 l s1) (forEach f2 l s2).
Proof.
  induction 1 as [|x l Hx _ IH]; intros s1 s2 Hs; simpl; [exact Hs|].
  eapply agree_bind; [apply Hx, Hs | exact IH].
Qed.

Lemma agreeS_intro (base1 base2 src1 src2 : MagicString)
    (bindings : Bindings) :
  sameDelta base1 base2 src1 src2 ->
  agreeS base1 base2 (src1, bindings) (src2, bindings).
Proof. split; [assumption | reflexivity]. Qed.

Ltac agree_children :=
  match goal with
  | H : rewriterAgrees ?n
    |- agree (agreeS ?S1 ?S2) (processStmt ?n ?s1 ?b)
         (processStmt ?n ?s2 ?b) =>
      refine (proj1 (H S1 S2 s1 s2 b _)); assumption
  | H : rewriterAgrees ?n
    |- agree (sameDelta ?S1 ?S2) (processExpr ?n ?s1 ?b)
         (processExpr ?n ?s2 ?b) =>
      refine (proj1 (proj2 (H S1 S2 s1 s2 b _))); assumption
  | H : rewriterAgrees ?n
    |- agree (sameDelta ?S1 ?S2) (processLVal ?n ?s1 ?b)
         (processLVal ?n ?s2 ?b) =>
      refine (proj1 (proj2 (proj2 (H S1 S2 s1 s2 b _)))); assumption
  | H : rewriterAgrees ?n
    |- agree (agreeS ?S1 ?S2) (processDeclarationId ?n ?s1 ?b)
         (processDeclarationId ?n ?s2 ?b) =>
      refine (proj2 (proj2 (proj2 (H S1 S2 s1 s2 b _)))); assumption
  end.

(** A pair of related states: the two snapshots are one. *)
Ltac agree_unpack :=
  repeat match goal with
         | H : agreeS _ _ ?a1 ?a2 |- _ =>
             destruct a1 as [? ?]; destruct a2 as [? ?];
             let Hb := fresh in
             destruct H as [? Hb]; cbn [fst snd] in *; subst
         end;
  lazy beta iota.

Ltac agree_base k :=
  lazymatch goal with
  | |- agree (sameDelta ?S1 ?S2) _ _ => k S1 S2
  | |- agree (agreeS ?S1 ?S2) _ _ => k S1 S2
  end.

Ltac agree_bind_step :=
  lazymatch goal with
  | |- agree _ (bind ?r _) (bind _ _) =>
      let T := type of r in
      lazymatch eval cbv beta in T with
      | Result (_ * _) =>
          agree_base ltac:(fun S1 S2 => apply (agree_bind (agreeS S1 S2)))
      | _ =>
          agree_base ltac:(fun S1 S2 => apply (agree_bind (sameDelta S1 S2)))
      end; [|intros; agree_unpack]
  end.

Ltac agree_loop :=
  lazymatch goal with
  | |- agree ?p (forEach _ _ _) (forEach _ _ _) =>
      apply (agree_forEach p);
      [ weaken_children; intros; split_hyps; agree_unpack
      | first [ apply agreeS_intro; assumption | assumption ] ]
  end.

Lemma processVariableDeclaration_agrees
    (declarations : list (VariableDeclarator Node)) :
  Forall (fun d => rewriterAgrees (d_id d) /\
                   from_option rewriterAgrees True (d_init d))
    declarations ->
  forall base1 base2 src1 src2 bindings,
    sameDelta base1 base2 src1 src2 ->
    agree (agreeS base1 base2)
      (processVariableDeclarationWith processExpr processDeclarationId
         declarations src1 bindings)
      (processVariableDeclarationWith processExpr processDeclarationId
         declarations src2 bindings).
Proof.
  intros H S1 S2 src1 src2 b Hs.
  unfold processVariableDeclarationWith.
  apply (agree_forEach (agreeS S1 S2)); [|apply agreeS_intro, Hs].
  eapply Forall_impl; [exact H|].
  intros [di dn] [Hi Hn] [s1 c1] [s2 c2] [Hs' Hb']; simpl in *. subst c2.
  apply (agree_bind (sameDelta S1 S2)).
  - destruct dn as [dn|]; simpl in *; [|exact Hs'].
    exact (proj1 (proj2 (Hn S1 S2 s1 s2 c1 Hs'))).
  - intros a1 a2 Ha.
    exact (proj2 (proj2 (proj2 (Hi S1 S2 a1 a2 c1 Ha)))).
Qed.

Ltac agree_core :=
  match goal with
  | |- True => exact I
  | |- agree _ (Throw _) (Throw _) => reflexivity
  | |- agree (sameDelta _ _) (Ok (updateIfBound _ _ _ _ _ _))
         (Ok (updateIfBound _ _ _ _ _ _)) =>
      apply sameDelta_updateIfBound; assumption
  | |- agree (sameDelta _ _) (Ok _) (Ok _) => assumption
  | |- agree (agreeS _ _) (Ok (_, _)) (Ok (_, _)) =>
      apply agreeS_intro; assumption
  | |- agree _ (processStmt _ _ _) _ => agree_children
  | |- agree _ (processExpr _ _ _) _ => agree_children
  | |- agree _ (processLVal _ _ _) _ => agree_children
  | |- agree _ (processDeclarationId _ _ _) _ => agree_children
  | |- agree _ (bind _ _) _ => agree_bind_step
  | |- agree _ (processVariableDeclarationWith _ _ _ _ _) _ =>
      apply processVariableDeclaration_agrees;
      [ first
          [ eassumption
          | weaken_children;
            let d := fresh in
            intros d [[? ?] ?]; split; [assumption|];
            destruct (d_init d); cbn [from_option] in *; tauto ]
      | assumption ]
  | |- agree _ (forEach _ _ _) _ => agree_loop
  | |- agree _ (processExprOrPatternLikeWith _ _ _ _ _) _ =>
      unfold processExprOrPatternLikeWith
  | |- agree _ (processShorthand _ _ _) _ => unfold processShorthand
  | |- agree _ (match type ?c with _ => _ end) _ =>
      is_var c; destruct c as [? ? []]; dispatch
  | |- agree _ (match ?o with Some _ => _ | None => _ end) _ =>
      is_var o; destruct o; dispatch
  | |- agree _ (match d_init ?d with _ => _ end) _ =>
      is_var d; destruct d as [? []]; dispatch
  | |- agree _ (match c_test ?d with _ => _ end) _ =>
      is_var d; destruct d as [[] ?]; dispatch
  | |- agree _ (match h_param ?d with _ => _ end) _ =>
      is_var d; destruct d as [[] ?]; dispatch
  | |- agree _ (if ?c then _ else _) _ => destruct c
  | H : True |- _ => clear H
  end.

Lemma processArgument_agrees (arg : Node) :
  rewriterAgrees arg ->
  allChildren rewriterAgrees (type arg) ->
  forall base1 base2 src1 src2 bindings,
    sameDelta base1 base2 src1 src2 ->
    agree (sameDelta base1 base2)
      (processArgumentWith processExpr arg src1 bindings)
      (processArgumentWith processExpr arg src2 bindings).
Proof.
  intros H Hc S1 S2 src1 src2 b Hs.
  unfold processArgumentWith.
  destruct (isJSXNamespacedName arg); [exact Hs|].
  repeat agree_core.
Qed.

Ltac agree_step :=
  lazymatch goal with
  | |- agree _ (processArgumentWith _ _ _ _) _ =>
      apply processArgument_agrees; assumption
  | _ => agree_core
  end.

Lemma rewriter_agrees (ast : Node) : rewriterAgrees ast.
Proof.
  induction ast as [s e t IH] using Node_children2_ind.
  intros S1 S2 src1 src2 b Hs.
  destruct t; simpl in IH; split_hyps;
    (split; [|split; [|split]]);
    cbn [processStmt processExpr processLVal processDeclarationId type
         start end_].
  all: repeat agree_step.
Qed.

Lemma sameDelta_refl (src1 src2 : MagicString) :
  sameDelta src1 src2 src1 src2.
Proof.
  exists []. unfold addEdits. rewrite !app_nil_r.
  destruct src1, src2; auto.
Qed.

Lemma agree_Ok {A : Type} (p : A -> A -> Prop) (r1 r2 : Result A)
    (a1 a2 : A) :
  agree p r1 r2 -> r1 = Ok a1 -> r2 = Ok a2 -> p a1 a2.
Proof. intros H -> ->. exact H. Qed.

(** X13. The edits the rewriter schedules do not depend on the buffer it
    is given.  When two runs of one of the four recursive functions on
    the same node with the same snapshot, started on any two buffers,
    both return, they have added the same list of edits, each to its own
    buffer, and the two functions that return a snapshot return the same
    one. *)
Theorem X13_scheduled_edits_do_not_depend_on_the_buffer (ast : Node)
    (src1 src2 : MagicString) (bindings : Bindings) :
  (forall r1 r2,
      processStmt ast src1 bindings = Ok r1 ->
      processStmt ast src2 bindings = Ok r2 ->
      (exists new, r1.1 = addEdits src1 new /\ r2.1 = addEdits src2 new) /\
      r1.2 = r2.2) /\
  (forall r1 r2,
      processExpr ast src1 bindings = Ok r1 ->
      processExpr ast src2 bindings = Ok r2 ->
      exists new, r1 = addEdits src1 new /\ r2 = addEdits src2 new) /\
  (forall r1 r2,
      processLVal ast src1 bindings = Ok r1 ->
      processLVal ast src2 bindings = Ok r2 ->
      exists new, r1 = addEdits src1 new /\ r2 = addEdits src2 new) /\
  (forall r1 r2,
      processDeclarationId ast src1 bindings = Ok r1 ->
      processDeclarationId ast src2 bindings = Ok r2 ->
      (exists new, r1.1 = addEdits src1 new /\ r2.1 = addEdits src2 new) /\
      r1.2 = r2.2).
Proof.
  destruct (rewriter_agrees ast src1 src2 src1 src2 bindings
              (sameDelta_refl src1 src2))
    as (H1 & H2 & H3 & H4).
  split; [|split; [|split]]; intros r1 r2 Hr1 Hr2.
  - exact (agree_Ok _ _ _ _ _ H1 Hr1 Hr2).
  - exact (agree_Ok _ _ _ _ _ H2 Hr1 Hr2).
  - exact (agree_Ok _ _ _ _ _ H3 Hr1 Hr2).
  - exact (agree_Ok _ _ _ _ _ H4 Hr1 Hr2).
Qed.
